(** * Delta-X UAVSAR workflow: catalog search, credentials, raster read

    A shallow embedding of the Python cells of
    [deltax_uavsar_earthdata_cloud.ipynb]:

    - [search_cmr]          (CMR catalog search, paginated),
    - [get_s3credentials]   (temporary credential fetch),
    - the granule sub-selection cell,
    - the annotation read through [fs_s3.open],
    - the SLC read through [np.memmap] and [reshape].

    Python values coming out of [r.json()] are modelled by the type [json];
    exceptions and the [while True] loop by the three-way [outcome]; the HTTP
    requests a function issues are recorded, in order, in a request log. *)

From Stdlib Require Import ZArith NArith List String Ascii Bool Lia.
From Stdlib Require Import Strings.Byte.
From Stdlib Require Import SpecFloat.
Import ListNotations.

#[local] Set Warnings "-register-all".

Local Open Scope string_scope.
Local Open Scope list_scope.
Local Open Scope Z_scope.

(* ===================================================================== *)
(** ** Python values and exceptions *)
(* ===================================================================== *)

(** The exception classes that the modelled statements can raise. *)
Inductive exn : Type :=
| KeyError
| IndexError
| TypeError
| AttributeError
| ValueError
| FileNotFoundError
| PermissionError
| JSONDecodeError
| HTTPError
| ConnectionError
| UnicodeDecodeError.

(** What [json.loads] builds: [None], [bool], [int], [float], [str], [list]
    and [dict] with [str] keys (kept in insertion order, keys distinct). *)
Inductive json : Type :=
| JNone
| JBool (b : bool)
| JInt (n : Z)
| JFloat (f : spec_float)
| JStr (s : string)
| JList (l : list json)
| JDict (d : list (string * json)).

(** The result of running a piece of Python: it returns, it raises, or (for
    the fuelled rendering of [while True]) it is still running when the
    iteration budget is used up. *)
Inductive outcome (A : Type) : Type :=
| Return (a : A)
| Raise (e : exn)
| Running.

Arguments Return {A} a.
Arguments Raise {A} e.
Arguments Running {A}.

Definition obind {A B} (o : outcome A) (k : A -> outcome B) : outcome B :=
  match o with
  | Return a => k a
  | Raise e => Raise e
  | Running => Running
  end.

Declare Scope py_scope.
Delimit Scope py_scope with py.
Notation "x <~ c ;; k" := (obind c (fun x => k))
  (at level 61, c at next level, right associativity) : py_scope.

(** [d[k]] on the association list of a dict. *)
Fixpoint dict_get (k : string) (d : list (string * json)) : option json :=
  match d with
  | [] => None
  | (k', v) :: d' => if String.eqb k k' then Some v else dict_get k d'
  end.

(** [v[k]] for a string subscript [k]: only a dict accepts it. *)
Definition getitem (v : json) (k : string) : outcome json :=
  match v with
  | JDict d =>
      match dict_get k d with
      | Some x => Return x
      | None => Raise KeyError
      end
  | _ => Raise TypeError
  end.

(** [l[i]] on a Python sequence, negative indices counting from the end. *)
Definition list_index {A} (l : list A) (i : Z) : outcome A :=
  let len := Z.of_nat (List.length l) in
  let j := if i <? 0 then i + len else i in
  if (j <? 0) || (len <=? j) then Raise IndexError
  else match nth_error l (Z.to_nat j) with
       | Some x => Return x
       | None => Raise IndexError
       end.

Definition chars (s : string) : list json :=
  map (fun c => JStr (String c EmptyString)) (list_ascii_of_string s).

(** [v[i]] for an integer subscript: lists and strings are indexed, a dict
    from JSON has no integer key, the other values are not subscriptable. *)
Definition getitem_int (v : json) (i : Z) : outcome json :=
  match v with
  | JList l => list_index l i
  | JStr s => list_index (chars s) i
  | JDict _ => Raise KeyError
  | _ => Raise TypeError
  end.

Definition is_zero_float (f : spec_float) : bool :=
  match f with
  | S754_zero _ => true
  | _ => false
  end.

(** Truth value of an object, as tested by [if granules:]. *)
Definition truthy (v : json) : bool :=
  match v with
  | JNone => false
  | JBool b => b
  | JInt n => negb (n =? 0)
  | JFloat f => negb (is_zero_float f)
  | JStr s => negb (String.eqb s "")
  | JList l => match l with [] => false | _ => true end
  | JDict d => match d with [] => false | _ => true end
  end.

(** The items a [for] loop visits: list elements, dict keys, the characters
    of a string; anything else is not iterable. *)
Definition iter (v : json) : outcome (list json) :=
  match v with
  | JList l => Return l
  | JDict d => Return (map (fun kv => JStr (fst kv)) d)
  | JStr s => Return (chars s)
  | _ => Raise TypeError
  end.

(** [v.startswith(p)]: only [str] has the method. *)
Definition startswith (v : json) (p : string) : outcome bool :=
  match v with
  | JStr s => Return (String.prefix p s)
  | _ => Raise AttributeError
  end.

(** A value already known to be a [str], as appended to [s3_arr]. *)
Definition as_str (v : json) : outcome string :=
  match v with
  | JStr s => Return s
  | _ => Raise AttributeError
  end.

(** A [for] loop threading one mutable accumulator through its body. *)
Fixpoint for_each {A S} (body : S -> A -> outcome S) (items : list A) (s : S)
  : outcome S :=
  match items with
  | [] => Return s
  | x :: rest => obind (body s x) (for_each body rest)
  end.

(* ===================================================================== *)
(** ** HTTP: requests, responses, the request log *)
(* ===================================================================== *)

Inductive request : Type :=
| GET (url : string)
| POST (url : string) (data : list (string * json)).

(** A response: its status code and its body, [None] when the body is not
    JSON text. *)
Record Response : Type := mkResponse {
  status_code : Z;
  body : option json
}.

(** The network as seen by the notebook: a request is answered by a response
    or fails at transport level with an exception. *)
Definition server : Type := request -> outcome Response.

(** A computation together with the requests it has issued, in order. *)
Definition io (A : Type) : Type := (list request * outcome A)%type.

Definition ret {A} (a : A) : io A := ([], Return a).

Definition lift {A} (o : outcome A) : io A := ([], o).

Definition bind {A B} (m : io A) (k : A -> io B) : io B :=
  match m with
  | (log, Return a) => let (log', r) := k a in (log ++ log', r)
  | (log, Raise e) => (log, Raise e)
  | (log, Running) => (log, Running)
  end.

Notation "x <- c ;; k" := (bind c (fun x => k))
  (at level 61, c at next level, right associativity) : py_scope.

Definition requests_get (srv : server) (url : string) : io Response :=
  ([GET url], srv (GET url)).

Definition requests_post (srv : server) (url : string)
  (data : list (string * json)) : io Response :=
  ([POST url data], srv (POST url data)).

(** [r.raise_for_status()]: client and server error codes raise. *)
Definition is_error_status (st : Z) : bool := (400 <=? st) && (st <? 600).

Definition raise_for_status (r : Response) : outcome unit :=
  if is_error_status (status_code r) then Raise HTTPError else Return tt.

(** [r.json()] *)
Definition json_of (r : Response) : outcome json :=
  match body r with
  | Some j => Return j
  | None => Raise JSONDecodeError
  end.

Local Open Scope py_scope.

(* ===================================================================== *)
(** ** [search_cmr] *)
(* ===================================================================== *)

Definition cmrurl : string := "https://cmr.earthdata.nasa.gov/search/".

Definition doisearch (doi : string) : string :=
  (cmrurl ++ "collections.json?doi=" ++ doi)%string.

Definition granulesearch : string := (cmrurl ++ "granules.json")%string.

Definition page_size : Z := 2000.

Definition cmr_param (concept_id : json) (page_num : Z)
  : list (string * json) :=
  [ ("collection_concept_id", concept_id);
    ("page_size", JInt page_size);
    ("page_num", JInt page_num) ].

(** [requests.get(doisearch).json()['feed']['entry'][0]['id']] *)
Definition concept_id_of (j : json) : outcome json :=
  feed <~ getitem j "feed" ;;
  entry <~ getitem feed "entry" ;;
  first <~ getitem_int entry 0 ;;
  getitem first "id".

Definition lookup_concept_id (srv : server) (doi : string) : io json :=
  r <- requests_get srv (doisearch doi) ;;
  lift (j <~ json_of r ;; concept_id_of j).

(** Body of [for links in g['links']]. *)
Definition link_step (s3_arr : list string) (links : json)
  : outcome (list string) :=
  href <~ getitem links "href" ;;
  b <~ startswith href "s3://" ;;
  if b then
    href' <~ getitem links "href" ;;
    s <~ as_str href' ;;
    Return (s3_arr ++ [s])
  else Return s3_arr.

(** Body of [for g in granules]. *)
Definition granule_step (s3_arr : list string) (g : json)
  : outcome (list string) :=
  ls <~ getitem g "links" ;;
  items <~ iter ls ;;
  for_each link_step items s3_arr.

Definition page_step (s3_arr : list string) (granules : json)
  : outcome (list string) :=
  items <~ iter granules ;;
  for_each granule_step items s3_arr.

(** One page request: the POST, the status check and
    [r.json()['feed']['entry']]. *)
Definition fetch_page (srv : server) (concept_id : json) (page_num : Z)
  : io json :=
  r <- requests_post srv granulesearch (cmr_param concept_id page_num) ;;
  lift (_ <~ raise_for_status r ;;
        j <~ json_of r ;;
        feed <~ getitem j "feed" ;;
        getitem feed "entry").

(** The [while True] loop; [fuel] bounds the number of iterations and an
    exhausted budget is reported as [Running]. *)
Fixpoint search_loop (srv : server) (fuel : nat) (concept_id : json)
  (page_num : Z) (s3_arr : list string) : io (list string) :=
  match fuel with
  | O => ([], Running)
  | S fuel' =>
      granules <- fetch_page srv concept_id page_num ;;
      if truthy granules then
        s3_arr' <- lift (page_step s3_arr granules) ;;
        search_loop srv fuel' concept_id (page_num + 1) s3_arr'
      else ret s3_arr
  end.

Definition search_cmr (srv : server) (fuel : nat) (doi : string)
  : io (list string) :=
  concept_id <- lookup_concept_id srv doi ;;
  search_loop srv fuel concept_id 1 [].

(* ===================================================================== *)
(** ** [get_s3credentials] *)
(* ===================================================================== *)

Definition earthadata_s3 (daac : string) : string :=
  ("https://data." ++ daac ++ ".earthdata.nasa.gov/s3credentials")%string.

Definition get_s3credentials (srv : server) (daac : string) : io json :=
  r <- requests_get srv (earthadata_s3 daac) ;;
  lift (_ <~ raise_for_status r ;; json_of r).

(* ===================================================================== *)
(** ** Granule sub-selection *)
(* ===================================================================== *)

(** [s.split(sep)] for a one-character separator: never an empty list. *)
Fixpoint split (sep : ascii) (s : string) : list string :=
  match s with
  | EmptyString => [EmptyString]
  | String c s' =>
      if Ascii.eqb c sep then EmptyString :: split sep s'
      else match split sep s' with
           | h :: t => String c h :: t
           | [] => [String c EmptyString]
           end
  end.

(** [g.split('/')[-1]] *)
Definition basename (g : string) : outcome string :=
  list_index (split "/"%char g) (-1).

Definition granule_prefix : string :=
  "wterre_34202_21028_017_210407_L090VV_02_BU".

Definition select_step (granule_sub : list string) (g : string)
  : outcome (list string) :=
  name <~ basename g ;;
  if String.prefix granule_prefix name then Return (granule_sub ++ [g])
  else Return granule_sub.

Definition select_granules (granule_arr : list string)
  : outcome (list string) :=
  for_each select_step granule_arr [].

(* ===================================================================== *)
(** ** Object store session, local files, annotation read *)
(* ===================================================================== *)

(** [s3fs.S3FileSystem(anon=False, key=..., secret=..., token=...)] *)
Record S3FileSystem : Type := mkS3FileSystem {
  key : json;
  secret : json;
  token : json
}.

Definition make_fs_s3 (s3credentials : json) : outcome S3FileSystem :=
  k <~ getitem s3credentials "accessKeyId" ;;
  s <~ getitem s3credentials "secretAccessKey" ;;
  t <~ getitem s3credentials "sessionToken" ;;
  Return (mkS3FileSystem k s t).

(** A regular file of the working directory: its bytes and whether the
    process may read it and write it. *)
Record local_entry : Type := mkLocalEntry {
  file_bytes : list byte;
  file_readable : bool;
  file_writable : bool
}.

(** The two places bytes can come from: the remote object store, which
    answers a session holding credentials, and the files of the working
    directory. *)
Record storage : Type := mkStorage {
  s3_object : S3FileSystem -> string -> outcome (list byte);
  local_file : string -> option local_entry
}.

Definition in_range (lo hi c : N) : bool := ((lo <=? c) && (c <=? hi))%N.

(** A continuation byte of UTF-8. *)
Definition is_cont (c : N) : bool := in_range 128 191 c.

(** The second byte allowed after the lead byte of a three-byte and of a
    four-byte sequence (no overlong form, no surrogate, nothing above
    U+10FFFF). *)
Definition second_of_three (c0 c1 : N) : bool :=
  if (c0 =? 224)%N then in_range 160 191 c1
  else if (c0 =? 237)%N then in_range 128 159 c1
  else is_cont c1.

Definition second_of_four (c0 c1 : N) : bool :=
  if (c0 =? 240)%N then in_range 144 191 c1
  else if (c0 =? 244)%N then in_range 128 143 c1
  else is_cont c1.

(** Strict UTF-8 decoding of a byte string to code points, as the text
    layer of [open(..., mode='r')] does under a UTF-8 locale: any ill-formed
    sequence raises [UnicodeDecodeError]. *)
Fixpoint utf8_decode (bs : list byte) : outcome (list N) :=
  match bs with
  | [] => Return []
  | b0 :: r0 =>
      let c0 := Byte.to_N b0 in
      if (c0 <? 128)%N then
        t <~ utf8_decode r0 ;; Return (c0 :: t)
      else if in_range 194 223 c0 then
        match r0 with
        | b1 :: r1 =>
            let c1 := Byte.to_N b1 in
            if is_cont c1 then
              t <~ utf8_decode r1 ;;
              Return (((c0 - 192) * 64 + (c1 - 128))%N :: t)
            else Raise UnicodeDecodeError
        | _ => Raise UnicodeDecodeError
        end
      else if in_range 224 239 c0 then
        match r0 with
        | b1 :: b2 :: r2 =>
            let c1 := Byte.to_N b1 in
            let c2 := Byte.to_N b2 in
            if second_of_three c0 c1 && is_cont c2 then
              t <~ utf8_decode r2 ;;
              Return (((c0 - 224) * 4096 + (c1 - 128) * 64
                       + (c2 - 128))%N :: t)
            else Raise UnicodeDecodeError
        | _ => Raise UnicodeDecodeError
        end
      else if in_range 240 244 c0 then
        match r0 with
        | b1 :: b2 :: b3 :: r3 =>
            let c1 := Byte.to_N b1 in
            let c2 := Byte.to_N b2 in
            let c3 := Byte.to_N b3 in
            if second_of_four c0 c1 && is_cont c2 && is_cont c3 then
              t <~ utf8_decode r3 ;;
              Return (((c0 - 240) * 262144 + (c1 - 128) * 4096
                       + (c2 - 128) * 64 + (c3 - 128))%N :: t)
            else Raise UnicodeDecodeError
        | _ => Raise UnicodeDecodeError
        end
      else Raise UnicodeDecodeError
  end.

(** Universal newlines of a text read: [\r\n] and a lone [\r] both
    become [\n]. *)
Fixpoint universal_newlines (cs : list N) : list N :=
  match cs with
  | [] => []
  | c :: rest =>
      if (c =? 13)%N then
        match rest with
        | c' :: rest' =>
            if (c' =? 10)%N then 10%N :: universal_newlines rest'
            else 10%N :: universal_newlines rest
        | [] => [10%N]
        end
      else c :: universal_newlines rest
  end.

(** [fh.read()] on a file opened in text mode: the text as code points. *)
Definition read_text (raw : list byte) : outcome (list N) :=
  cs <~ utf8_decode raw ;;
  Return (universal_newlines cs).

(** [ann_file = granule_sub[2]] and [fs_s3.open(ann_file, mode='r').read()]:
    the object is fetched with the session's credentials and read as
    text. *)
Definition read_annotation (st : storage) (fs_s3 : S3FileSystem)
  (granule_sub : list string) : outcome (list N) :=
  ann_file <~ list_index granule_sub 2 ;;
  raw <~ s3_object st fs_s3 ann_file ;;
  read_text raw.

(* ===================================================================== *)
(** ** SLC read: [np.memmap(..., dtype=np.complex64)] and [reshape] *)
(* ===================================================================== *)

(** A [complex64] sample, kept as the two IEEE-754 binary32 bit patterns of
    its real and imaginary parts. *)
Record complex64 : Type := mkComplex64 {
  real_bits : N;
  imag_bits : N
}.

Definition le32 (b0 b1 b2 b3 : byte) : N :=
  (Byte.to_N b0 + 256 * (Byte.to_N b1 + 256 * (Byte.to_N b2
     + 256 * Byte.to_N b3)))%N.

Fixpoint frombuffer (buf : list byte) : list complex64 :=
  match buf with
  | b0 :: b1 :: b2 :: b3 :: b4 :: b5 :: b6 :: b7 :: rest =>
      mkComplex64 (le32 b0 b1 b2 b3) (le32 b4 b5 b6 b7) :: frombuffer rest
  | _ => []
  end.

Definition itemsize : N := 8.

(** The view [np.memmap] builds over the bytes of a file when no shape is
    given: the length must be a multiple of the item size, and an empty file
    cannot be mapped (numpy as of the notebook's Python 3.7 kernel). *)
Definition map_buffer (buf : list byte) : outcome (list complex64) :=
  let flen := N.of_nat (List.length buf) in
  if negb (flen mod itemsize =? 0)%N then Raise ValueError
  else if (flen =? 0)%N then Raise ValueError
  else Return (frombuffer buf).

(** [np.memmap(filename, dtype=np.complex64)]: no mode is given, so the
    file is opened [r+], for reading and writing; the open comes first. *)
Definition memmap (st : storage) (filename : string)
  : outcome (list complex64) :=
  match local_file st filename with
  | None => Raise FileNotFoundError
  | Some f =>
      if file_readable f && file_writable f then map_buffer (file_bytes f)
      else Raise PermissionError
  end.

(** [ds.reshape(rows, cols)]: row-major, total size must match. *)
Definition reshape (rows cols : N) (ds : list complex64)
  : outcome (list (list complex64)) :=
  if (N.of_nat (List.length ds) =? rows * cols)%N then
    Return (map (fun r => firstn (N.to_nat cols)
                            (skipn (r * N.to_nat cols) ds))
                (seq 0 (N.to_nat rows)))
  else Raise ValueError.

(** Raster decode of a byte buffer for given dimensions. *)
Definition decode_raster (rows cols : N) (buf : list byte)
  : outcome (list (list complex64)) :=
  ds <~ map_buffer buf ;;
  reshape rows cols ds.

(** The "Read SLC image" cell, with the dimensions as parameters. *)
Definition read_slc (rows cols : N) (st : storage)
  (granule_sub : list string) : outcome (list (list complex64)) :=
  seg1 <~ list_index granule_sub 1 ;;
  seg2 <~ list_index granule_sub 0 ;;
  name <~ basename seg2 ;;
  ds <~ memmap st name ;;
  reshape rows cols ds.

Definition cols_s2 : N := 9900.
Definition rows_s2 : N := 55408.

Definition read_slc_seg2 : storage -> list string ->
  outcome (list (list complex64)) :=
  read_slc rows_s2 cols_s2.

(** The same cell as the specification words it: the payload is the remote
    object, opened with the session's credentials. *)
Definition read_slc_via_s3 (rows cols : N) (st : storage)
  (fs_s3 : S3FileSystem) (granule_sub : list string)
  : outcome (list (list complex64)) :=
  seg1 <~ list_index granule_sub 1 ;;
  seg2 <~ list_index granule_sub 0 ;;
  buf <~ s3_object st fs_s3 seg2 ;;
  ds <~ map_buffer buf ;;
  reshape rows cols ds.

(* ===================================================================== *)
(** ** Reference reading of a granule record *)
(* ===================================================================== *)

(** The [href] of a link record when the record is a dict whose [href] is a
    string. *)
Definition link_href (l : json) : option string :=
  match l with
  | JDict d =>
      match dict_get "href" d with
      | Some (JStr s) => Some s
      | _ => None
      end
  | _ => None
  end.

Definition wf_link (l : json) : bool :=
  match link_href l with
  | Some _ => true
  | None => false
  end.

(** The link records of a granule when it is a dict whose [links] is a
    list. *)
Definition granule_links (g : json) : option (list json) :=
  match g with
  | JDict d =>
      match dict_get "links" d with
      | Some (JList ls) => Some ls
      | _ => None
      end
  | _ => None
  end.

Definition wf_granule (g : json) : bool :=
  match granule_links g with
  | Some ls => forallb wf_link ls
  | None => false
  end.

Fixpoint hrefs_of (ls : list json) : list string :=
  match ls with
  | [] => []
  | l :: ls' =>
      match link_href l with
      | Some s => s :: hrefs_of ls'
      | None => hrefs_of ls'
      end
  end.

(** Every link location of a granule, in record order. *)
Definition hrefs (g : json) : list string :=
  match granule_links g with
  | Some ls => hrefs_of ls
  | None => []
  end.

Definition is_s3 (s : string) : bool := String.prefix "s3://" s.

Definition s3_hrefs (g : json) : list string := filter is_s3 (hrefs g).

(** The object-store links of one page of granules. *)
Definition page_s3 (granules : list json) : list string :=
  flat_map s3_hrefs granules.

(** Page numbers [p, p+1, ..., p+n-1]. *)
Definition page_range (p : Z) (n : nat) : list Z :=
  map (fun i => p + Z.of_nat i) (seq 0 n).

Definition page_request (c : json) (n : Z) : request :=
  POST granulesearch (cmr_param c n).

(** [search_cmr] comes to an end, by returning or by raising. *)
Definition terminates (srv : server) (doi : string) : Prop :=
  exists fuel, snd (search_cmr srv fuel doi) <> Running.

Definition sample_count (buf : list byte) : N :=
  (N.of_nat (List.length buf) / itemsize)%N.

(* ===================================================================== *)
(** ** Sample catalog data and servers *)
(* ===================================================================== *)

Module Sample.

Definition doi : string := "10.3334/ORNLDAAC/1984".

Definition concept : json := JStr "C2111111111-ORNL_CLOUD".

Definition link (rel href : string) : json :=
  JDict [("rel", JStr rel); ("href", JStr href)].

Definition granule (title : string) (links : list json) : json :=
  JDict [("title", JStr title); ("links", JList links)].

Definition feed (entries : list json) : json :=
  JDict [("feed", JDict [("entry", JList entries)])].

Definition collections : json := feed [JDict [("id", concept)]].

(** A granule offering the same file over three access methods. *)
Definition three_links : json :=
  granule "seg1"
    [ link "s3#" "s3://ornl-cumulus/uavsar/wterre_s1_2x8.slc";
      link "data#" "https://data.ornldaac.earthdata.nasa.gov/wterre_s1_2x8.slc";
      link "data#" "ftp://ftp.example.org/wterre_s1_2x8.slc" ].

Definition page1 : list json :=
  [ three_links;
    granule "ann" [ link "s3#" "s3://ornl-cumulus/uavsar/wterre.ann" ] ].

Definition page2 : list json :=
  [ granule "seg2"
      [ link "data#" "https://data.ornldaac.earthdata.nasa.gov/wterre_s2_2x8.slc";
        link "s3#" "s3://ornl-cumulus/uavsar/wterre_s2_2x8.slc" ] ].

(** Two non-empty pages, then empty pages. *)
Definition two_pages (n : Z) : list json :=
  if n =? 1 then page1 else if n =? 2 then page2 else [].

(** Every page is non-empty. *)
Definition endless_pages (n : Z) : list json :=
  [ granule "seg" [ link "s3#" "s3://ornl-cumulus/uavsar/again.slc" ] ].

(** A catalog answering the lookup with [lookup] and page [n] of the
    listing with the entries [pages n]. *)
Definition catalog (lookup : Response) (pages : Z -> list json) : server :=
  fun rq =>
    match rq with
    | GET _ => Return lookup
    | POST _ data =>
        match dict_get "page_num" data with
        | Some (JInt n) => Return (mkResponse 200 (Some (feed (pages n))))
        | _ => Return (mkResponse 400 None)
        end
    end.

Definition srv_two_pages : server :=
  catalog (mkResponse 200 (Some collections)) two_pages.

Definition srv_endless : server :=
  catalog (mkResponse 200 (Some collections)) endless_pages.

(** No collection matches the DOI. *)
Definition srv_no_collection : server :=
  catalog (mkResponse 200 (Some (feed []))) two_pages.

(** The lookup is answered with an error status, yet with a body of the
    usual shape; the listing has no granule. *)
Definition srv_lookup_500 : server :=
  catalog (mkResponse 500 (Some collections)) (fun _ => []).

Definition credentials : json :=
  JDict [ ("accessKeyId", JStr "A");
          ("secretAccessKey", JStr "B");
          ("sessionToken", JStr "C");
          ("expiration", JStr "2024-01-01T00:00:00Z") ].

Definition srv_credentials : server :=
  fun _ => Return (mkResponse 200 (Some credentials)).

(** Two files of one sample each: [1.0 + 2.0i] and [3.0 + 4.0i]. *)
Definition payload_a : list byte :=
  [x00; x00; x80; x3f; x00; x00; x00; x40].

Definition payload_b : list byte :=
  [x00; x00; x40; x40; x00; x00; x80; x40].

Definition fs_s3 : S3FileSystem :=
  mkS3FileSystem (JStr "A") (JStr "B") (JStr "C").

Definition granule_sub : list string :=
  [ "s3://ornl-cumulus/uavsar/wterre_s2_2x8.slc";
    "s3://ornl-cumulus/uavsar/wterre_s1_2x8.slc";
    "s3://ornl-cumulus/uavsar/wterre.ann" ].

(** The bucket holds [payload_a] for segment 2. *)
Definition bucket (fs : S3FileSystem) (uri : string)
  : outcome (list byte) :=
  if String.eqb uri "s3://ornl-cumulus/uavsar/wterre_s2_2x8.slc"
  then Return payload_a
  else Raise FileNotFoundError.

(** Nothing has been downloaded. *)
Definition store_remote_only : storage :=
  mkStorage bucket (fun _ => None).

(** The working directory holds a different file under the same name. *)
Definition store_other_copy : storage :=
  mkStorage bucket
    (fun name => if String.eqb name "wterre_s2_2x8.slc"
                 then Some (mkLocalEntry payload_b true true) else None).

End Sample.

(* ===================================================================== *)
(** ** The credential and session cells; further reference notions *)
(* ===================================================================== *)

(** The cell that fetches the credentials and prints their expiration:
    [s3credentials = get_s3credentials("ornldaac")] followed by the
    subscript [s3credentials["expiration"]] inside the printed f-string.
    The printed text is not kept, the subscript and its failure are. *)
Definition s3credentials_cell (srv : server) : io json :=
  s3credentials <- get_s3credentials srv "ornldaac" ;;
  lift (_ <~ getitem s3credentials "expiration" ;; Return s3credentials).

(** That cell followed by the one building [fs_s3]. *)
Definition fs_s3_cell (srv : server) : io S3FileSystem :=
  s3credentials <- s3credentials_cell srv ;;
  lift (make_fs_s3 s3credentials).

(** Does the character occur in the string? *)
Fixpoint contains (c : ascii) (s : string) : bool :=
  match s with
  | EmptyString => false
  | String a s' => Ascii.eqb a c || contains c s'
  end.

(** The test of the sub-selection loop on one locator. *)
Definition selected (g : string) : bool :=
  match basename g with
  | Return name => String.prefix granule_prefix name
  | _ => false
  end.

(** The eight bytes of sample number [i] of a buffer. *)
Definition sample_bytes (i : nat) (buf : list byte) : list byte :=
  firstn 8 (skipn (8 * i) buf).

Module Cases.

(** Page 1 is served, page 2 is answered with status 503. *)
Definition srv_page2_503 : server :=
  fun rq =>
    match rq with
    | GET _ => Return (mkResponse 200 (Some Sample.collections))
    | POST _ data =>
        match dict_get "page_num" data with
        | Some (JInt n) =>
            if n =? 1
            then Return (mkResponse 200 (Some (Sample.feed Sample.page1)))
            else Return (mkResponse 503 (Some (Sample.feed Sample.page2)))
        | _ => Return (mkResponse 400 None)
        end
    end.

(** Page 1 is served, page 2 has [null] for its entries. *)
Definition srv_page2_null : server :=
  fun rq =>
    match rq with
    | GET _ => Return (mkResponse 200 (Some Sample.collections))
    | POST _ data =>
        match dict_get "page_num" data with
        | Some (JInt n) =>
            if n =? 1
            then Return (mkResponse 200 (Some (Sample.feed Sample.page1)))
            else Return (mkResponse 200
                           (Some (JDict [("feed", JDict [("entry", JNone)])])))
        | _ => Return (mkResponse 400 None)
        end
    end.

(** A granule record without [links], after a well-formed one. *)
Definition page_without_links : list json :=
  [ Sample.three_links; JDict [("title", JStr "bare")]; Sample.three_links ].

(** A granule whose second link has no [href], and one whose second link
    has a number for [href]. *)
Definition granule_link_without_href : json :=
  Sample.granule "g"
    [ Sample.link "s3#" "s3://ornl-cumulus/uavsar/a.slc";
      JDict [("rel", JStr "s3#")] ].

Definition granule_link_number_href : json :=
  Sample.granule "g"
    [ Sample.link "s3#" "s3://ornl-cumulus/uavsar/a.slc";
      JDict [("href", JInt 7)] ].

(** A credential endpoint in error that still sends a bundle. *)
Definition srv_credentials_403 : server :=
  fun _ => Return (mkResponse 403 (Some Sample.credentials)).

(** A bundle without [expiration]. *)
Definition credentials_no_expiration : list (string * json) :=
  [ ("accessKeyId", JStr "A");
    ("secretAccessKey", JStr "B");
    ("sessionToken", JStr "C") ].

Definition srv_no_expiration : server :=
  fun _ => Return (mkResponse 200 (Some (JDict credentials_no_expiration))).

(** The file is there and readable, but may not be written. *)
Definition store_read_only : storage :=
  mkStorage Sample.bucket
    (fun name => if String.eqb name "wterre_s2_2x8.slc"
                 then Some (mkLocalEntry Sample.payload_b true false)
                 else None).

(** A listing of one page holding the three-link granule alone. *)
Definition srv_three_links : server :=
  Sample.catalog (mkResponse 200 (Some Sample.collections))
    (fun n => if n =? 1 then [Sample.three_links] else []).

(** A listing of one page with the files of the acquisition of the
    notebook, each with an HTTPS mirror, and one file of another
    polarization. *)
Definition s3_dir : string :=
  "s3://ornl-cumulus-prod-protected/deltax/Delta-X_UAVSAR_L1_SLC/data/".

Definition https_dir : string :=
  "https://data.ornldaac.earthdata.nasa.gov/protected/deltax/data/".

Definition file_granule (name : string) : json :=
  Sample.granule name
    [ Sample.link "data#" (https_dir ++ name)%string;
      Sample.link "s3#" (s3_dir ++ name)%string ].

Definition vv_seg2 : string :=
  "wterre_34202_21028_017_210407_L090VV_02_BU_s2_2x8.slc".

Definition vv_seg1 : string :=
  "wterre_34202_21028_017_210407_L090VV_02_BU_s1_2x8.slc".

Definition vv_ann : string :=
  "wterre_34202_21028_017_210407_L090VV_02_BU.ann".

Definition hh_seg1 : string :=
  "wterre_34202_21028_017_210407_L090HH_02_BU_s1_2x8.slc".

Definition wterre_page : list json :=
  [ file_granule hh_seg1; file_granule vv_seg2;
    file_granule vv_seg1; file_granule vv_ann ].

Definition srv_wterre : server :=
  Sample.catalog (mkResponse 200 (Some Sample.collections))
    (fun n => if n =? 1 then wterre_page else []).

(** The working directory holds the right file, but one granule only was
    selected. *)
Definition one_granule : list string :=
  [ "s3://ornl-cumulus/uavsar/wterre_s2_2x8.slc" ].

(** A file of six samples, numbered 1 to 6 in their real parts. *)
Definition six_samples : list byte :=
  [ x01; x00; x00; x00; x0a; x00; x00; x00;
    x02; x00; x00; x00; x0b; x00; x00; x00;
    x03; x00; x00; x00; x0c; x00; x00; x00;
    x04; x00; x00; x00; x0d; x00; x00; x00;
    x05; x00; x00; x00; x0e; x00; x00; x00;
    x06; x00; x00; x00; x0f; x00; x00; x00 ].

Definition grid_2x3 : list (list complex64) :=
  [ [mkComplex64 1 10; mkComplex64 2 11; mkComplex64 3 12];
    [mkComplex64 4 13; mkComplex64 5 14; mkComplex64 6 15] ].

End Cases.

(* ===================================================================== *)
(** ** Link filtering *)
(* ===================================================================== *)

Lemma link_step_wf (acc : list string) (l : json) (s : string) :
  link_href l = Some s ->
  link_step acc l = Return (acc ++ filter is_s3 [s]).
Proof.
  unfold link_href, link_step, getitem.
  destruct l as [ | | | | | | d]; try discriminate.
  destruct (dict_get "href" d) as [v|]; try discriminate.
  destruct v; try discriminate.
  intros E; injection E as ->. cbn [obind startswith as_str filter].
  unfold is_s3. destruct (String.prefix "s3://" s); cbn.
  - reflexivity.
  - now rewrite app_nil_r.
Qed.

Lemma for_each_links (ls : list json) :
  forallb wf_link ls = true ->
  forall acc,
    for_each link_step ls acc = Return (acc ++ filter is_s3 (hrefs_of ls)).
Proof.
  induction ls as [|l ls IH]; intros Hwf acc; cbn [for_each hrefs_of].
  - cbn. now rewrite app_nil_r.
  - cbn [forallb] in Hwf. apply andb_prop in Hwf as [Hl Hls].
    unfold wf_link in Hl. destruct (link_href l) as [s|] eqn:E; try discriminate.
    rewrite (link_step_wf acc l s E). cbn [obind].
    rewrite (IH Hls). rewrite <- app_assoc. cbn [filter].
    destruct (is_s3 s); reflexivity.
Qed.

Lemma granule_step_wf (acc : list string) (g : json) :
  wf_granule g = true ->
  granule_step acc g = Return (acc ++ s3_hrefs g).
Proof.
  unfold wf_granule, s3_hrefs, hrefs, granule_step, granule_links, getitem.
  destruct g as [ | | | | | | d]; try discriminate.
  destruct (dict_get "links" d) as [v|]; try discriminate.
  destruct v; try discriminate.
  intros Hwf. cbn [obind iter]. now apply for_each_links.
Qed.

Lemma for_each_granules (gs : list json) :
  forallb wf_granule gs = true ->
  forall acc, for_each granule_step gs acc = Return (acc ++ page_s3 gs).
Proof.
  induction gs as [|g gs IH]; intros Hwf acc; cbn [for_each page_s3 flat_map].
  - now rewrite app_nil_r.
  - cbn [forallb] in Hwf. apply andb_prop in Hwf as [Hg Hgs].
    rewrite (granule_step_wf acc g Hg). cbn [obind].
    rewrite (IH Hgs). unfold page_s3. now rewrite app_assoc.
Qed.

Lemma page_step_wf (acc : list string) (gs : list json) :
  forallb wf_granule gs = true ->
  page_step acc (JList gs) = Return (acc ++ page_s3 gs).
Proof.
  intros Hwf. unfold page_step. cbn [iter obind]. now apply for_each_granules.
Qed.

(* ===================================================================== *)
(** ** Pagination *)
(* ===================================================================== *)

Lemma page_range_S (p : Z) (n : nat) :
  page_range p (S n) = p :: page_range (p + 1) n.
Proof.
  unfold page_range. cbn [seq map]. f_equal.
  - lia.
  - rewrite <- seq_shift, map_map. apply map_ext. intros i. lia.
Qed.

Lemma page_range_In (p : Z) (n : nat) (k : Z) :
  In k (page_range p n) <-> p <= k < p + Z.of_nat n.
Proof.
  unfold page_range. rewrite in_map_iff. split.
  - intros [i [<- Hi]]. apply in_seq in Hi. lia.
  - intros Hk. exists (Z.to_nat (k - p)). split; [lia|]. apply in_seq. lia.
Qed.

Lemma bind_fst_snd {A B} (m : io A) (k : A -> io B) (log : list request)
  (a : A) :
  m = (log, Return a) ->
  bind m k = (log ++ fst (k a), snd (k a)).
Proof. intros ->. cbn. now destruct (k a). Qed.

Section Loop.
Variable srv : server.
Variable c : json.

Lemma fetch_page_log (n : Z) : fst (fetch_page srv c n) = [page_request c n].
Proof.
  unfold fetch_page, requests_post, bind, lift, page_request.
  destruct (srv _); reflexivity.
Qed.

Lemma fetch_page_eq (n : Z) (o : outcome json) :
  snd (fetch_page srv c n) = o ->
  fetch_page srv c n = ([page_request c n], o).
Proof.
  intros <-. rewrite <- fetch_page_log. now destruct (fetch_page srv c n).
Qed.

(** The loop leaves at a page whose entries are false in a test. *)
Lemma search_loop_stop (fuel : nat) (p : Z) (acc : list string) (v : json) :
  snd (fetch_page srv c p) = Return v ->
  truthy v = false ->
  search_loop srv (S fuel) c p acc = ([page_request c p], Return acc).
Proof.
  intros Hf Hv. cbn [search_loop].
  rewrite (bind_fst_snd _ _ _ _ (fetch_page_eq p _ Hf)), Hv.
  reflexivity.
Qed.

(** On a non-empty page of well-formed granules it goes round again. *)
Lemma search_loop_next (fuel : nat) (p : Z) (acc : list string)
  (gs : list json) :
  snd (fetch_page srv c p) = Return (JList gs) ->
  gs <> [] ->
  forallb wf_granule gs = true ->
  search_loop srv (S fuel) c p acc =
    (page_request c p
       :: fst (search_loop srv fuel c (p + 1) (acc ++ page_s3 gs)),
     snd (search_loop srv fuel c (p + 1) (acc ++ page_s3 gs))).
Proof.
  intros Hf Hne Hwf. cbn [search_loop].
  rewrite (bind_fst_snd _ _ _ _ (fetch_page_eq p _ Hf)).
  assert (Ht : truthy (JList gs) = true) by (destruct gs; [easy | reflexivity]).
  rewrite Ht. unfold lift. rewrite (page_step_wf acc gs Hwf).
  cbn [bind]. destruct (search_loop srv fuel c (p + 1) _). reflexivity.
Qed.

(** A failing page request ends the loop with the failure. *)
Lemma search_loop_raise (fuel : nat) (p : Z) (acc : list string) (e : exn) :
  snd (fetch_page srv c p) = Raise e ->
  search_loop srv (S fuel) c p acc = ([page_request c p], Raise e).
Proof.
  intros Hf. cbn [search_loop]. now rewrite (fetch_page_eq p _ Hf).
Qed.

Variable pages : Z -> list json.

(** [n] non-empty pages from page [p] on, then an empty one. *)
Lemma search_loop_pages (n : nat) :
  forall (fuel : nat) (p : Z) (acc : list string),
    (forall k, p <= k <= p + Z.of_nat n ->
               snd (fetch_page srv c k) = Return (JList (pages k))) ->
    (forall k, p <= k < p + Z.of_nat n ->
               pages k <> [] /\ forallb wf_granule (pages k) = true) ->
    pages (p + Z.of_nat n) = [] ->
    (n < fuel)%nat ->
    search_loop srv fuel c p acc =
      (map (page_request c) (page_range p (S n)),
       Return (acc ++ flat_map page_s3 (map pages (page_range p n)))).
Proof.
  induction n as [|n IH]; intros fuel p acc Hfetch Hfull Hlast Hfuel;
    (destruct fuel as [|fuel]; [lia|]).
  - replace (p + Z.of_nat 0) with p in * by lia.
    rewrite (search_loop_stop fuel p acc (JList (pages p))).
    + cbn. now rewrite app_nil_r, Z.add_0_r.
    + apply Hfetch. lia.
    + now rewrite Hlast.
  - destruct (Hfull p) as [Hne Hwf]; [lia|].
    rewrite (search_loop_next fuel p acc (pages p)); auto.
    2: { apply Hfetch. lia. }
    rewrite (IH fuel (p + 1) (acc ++ page_s3 (pages p))).
    + rewrite (page_range_S p (S n)), (page_range_S p n).
      cbn [map flat_map fst snd]. now rewrite <- app_assoc.
    + intros k Hk. apply Hfetch. lia.
    + intros k Hk. apply Hfull. lia.
    + rewrite <- Hlast. f_equal. lia.
    + lia.
Qed.

(** As long as the pages are non-empty the budget runs out, and every
    iteration has asked for one more page. *)
Lemma search_loop_running (fuel : nat) :
  forall (p : Z) (acc : list string),
    (forall k, p <= k < p + Z.of_nat fuel ->
               snd (fetch_page srv c k) = Return (JList (pages k))
               /\ pages k <> [] /\ forallb wf_granule (pages k) = true) ->
    search_loop srv fuel c p acc =
      (map (page_request c) (page_range p fuel), Running).
Proof.
  induction fuel as [|fuel IH]; intros p acc H.
  - reflexivity.
  - destruct (H p) as [Hf [Hne Hwf]]; [lia|].
    rewrite (search_loop_next fuel p acc (pages p)); auto.
    rewrite IH.
    + now rewrite page_range_S.
    + intros k Hk. apply H. lia.
Qed.

(** Once the loop has come to an end within a budget, a larger budget
    changes nothing: the fuel is only a bound on the iterations. *)
Lemma search_loop_fuel_mono (fuel : nat) :
  forall (fuel' : nat) (p : Z) (acc : list string),
    (fuel <= fuel')%nat ->
    snd (search_loop srv fuel c p acc) <> Running ->
    search_loop srv fuel' c p acc = search_loop srv fuel c p acc.
Proof.
  induction fuel as [|fuel IH]; intros fuel' p acc Hle Hend.
  - now elim Hend.
  - destruct fuel' as [|fuel']; [lia|].
    cbn [search_loop] in *.
    destruct (fetch_page srv c p) as [log [v|e|]]; cbn [bind] in *; auto.
    destruct (truthy v); auto.
    unfold lift in *.
    destruct (page_step acc v) as [acc'|e|]; cbn [bind] in *; auto.
    rewrite (IH fuel' (p + 1) acc'); [reflexivity | lia |].
    destruct (search_loop srv fuel c (p + 1) acc'). exact Hend.
Qed.

(** Every request of the loop is a page request for the collection. *)
Lemma search_loop_requests (fuel : nat) :
  forall (p : Z) (acc : list string),
    exists m : nat,
      fst (search_loop srv fuel c p acc)
      = map (page_request c) (page_range p m).
Proof.
  induction fuel as [|fuel IH]; intros p acc.
  - exists 0%nat. reflexivity.
  - cbn [search_loop].
    destruct (snd (fetch_page srv c p)) as [v|e|] eqn:Hf;
      rewrite (fetch_page_eq p _ Hf).
    + cbn [bind]. destruct (truthy v).
      * unfold lift. destruct (page_step acc v) as [acc'|e|]; cbn [bind].
        -- destruct (IH (p + 1) acc') as [m Hm].
           exists (S m). rewrite page_range_S.
           destruct (search_loop srv fuel c (p + 1) acc'). cbn in *.
           now rewrite Hm.
        -- exists 1%nat. cbn. now rewrite Z.add_0_r.
        -- exists 1%nat. cbn. now rewrite Z.add_0_r.
      * exists 1%nat. cbn. now rewrite Z.add_0_r.
    + exists 1%nat. cbn. now rewrite Z.add_0_r.
    + exists 1%nat. cbn. now rewrite Z.add_0_r.
Qed.
End Loop.

(* ===================================================================== *)
(** ** [search_cmr]: lookup followed by the loop *)
(* ===================================================================== *)

Section Search.
Variable srv : server.
Variable doi : string.

Lemma lookup_concept_id_log :
  fst (lookup_concept_id srv doi) = [GET (doisearch doi)].
Proof.
  unfold lookup_concept_id, requests_get, bind, lift.
  destruct (srv _); reflexivity.
Qed.

Lemma lookup_concept_id_eq (o : outcome json) :
  snd (lookup_concept_id srv doi) = o ->
  lookup_concept_id srv doi = ([GET (doisearch doi)], o).
Proof.
  intros <-. rewrite <- lookup_concept_id_log.
  now destruct (lookup_concept_id srv doi).
Qed.

Lemma lookup_concept_id_body (r : Response) (j : json) :
  srv (GET (doisearch doi)) = Return r ->
  body r = Some j ->
  lookup_concept_id srv doi = ([GET (doisearch doi)], concept_id_of j).
Proof.
  intros Hr Hj. unfold lookup_concept_id, requests_get, bind, lift, json_of.
  rewrite Hr, Hj. reflexivity.
Qed.

Lemma search_cmr_found (fuel : nat) (c : json) :
  snd (lookup_concept_id srv doi) = Return c ->
  search_cmr srv fuel doi =
    (GET (doisearch doi) :: fst (search_loop srv fuel c 1 []),
     snd (search_loop srv fuel c 1 [])).
Proof.
  intros H. unfold search_cmr.
  now rewrite (bind_fst_snd _ _ _ _ (lookup_concept_id_eq _ H)).
Qed.

Lemma search_cmr_lookup_raise (fuel : nat) (e : exn) :
  snd (lookup_concept_id srv doi) = Raise e ->
  search_cmr srv fuel doi = ([GET (doisearch doi)], Raise e).
Proof.
  intros H. unfold search_cmr. now rewrite (lookup_concept_id_eq _ H).
Qed.
End Search.

(** Looking for the first empty page among [p, ..., p+n-1]. *)
Lemma first_empty_page (pages : Z -> list json) (n : nat) :
  forall p : Z,
    (exists m : nat, (m < n)%nat /\ pages (p + Z.of_nat m) = [] /\
       forall k, p <= k < p + Z.of_nat m -> pages k <> [])
    \/ (forall k, p <= k < p + Z.of_nat n -> pages k <> []).
Proof.
  induction n as [|n IH]; intros p.
  - right. intros k Hk. lia.
  - destruct (pages p) as [|g gs] eqn:Hp.
    + left. exists 0%nat. repeat split; [lia | now rewrite Z.add_0_r | ].
      intros k Hk. lia.
    + destruct (IH (p + 1)) as [[m [Hm [He Hb]]] | Hall].
      * left. exists (S m). repeat split; [lia | | ].
        -- rewrite <- He. f_equal. lia.
        -- intros k Hk. destruct (Z.eq_dec k p) as [-> | Hne].
           ++ now rewrite Hp.
           ++ apply Hb. lia.
      * right. intros k Hk. destruct (Z.eq_dec k p) as [-> | Hne].
        -- now rewrite Hp.
        -- apply Hall. lia.
Qed.

(** C3. When the DOI lookup yields a collection and the listing answers
    page [k] with the entry list [pages k], non-empty for pages [1..n] and
    empty at page [n+1], [search_cmr] issues the lookup and then exactly the
    [n+1] page requests for pages [1, ..., n+1], each with page size 2000,
    and returns the object-store links of pages [1..n] concatenated in page
    order. *)
Theorem search_cmr_pagination (srv : server) (doi : string) (c : json)
  (pages : Z -> list json) (n fuel : nat) :
  snd (lookup_concept_id srv doi) = Return c ->
  (forall k, 1 <= k <= 1 + Z.of_nat n ->
             snd (fetch_page srv c k) = Return (JList (pages k))) ->
  (forall k, 1 <= k < 1 + Z.of_nat n ->
             pages k <> [] /\ forallb wf_granule (pages k) = true) ->
  pages (1 + Z.of_nat n) = [] ->
  (n < fuel)%nat ->
  search_cmr srv fuel doi =
    (GET (doisearch doi)
       :: map (fun k => POST granulesearch
                          [ ("collection_concept_id", c);
                            ("page_size", JInt 2000);
                            ("page_num", JInt k) ])
              (page_range 1 (S n)),
     Return (flat_map page_s3 (map pages (page_range 1 n)))).
Proof.
  intros Hc Hfetch Hfull Hlast Hfuel.
  rewrite (search_cmr_found srv doi fuel c Hc).
  rewrite (search_loop_pages srv c pages n fuel 1 []); auto.
Qed.

Lemma search_cmr_pagination_witness :
  search_cmr Sample.srv_two_pages 3 Sample.doi =
    ([ GET "https://cmr.earthdata.nasa.gov/search/collections.json?doi=10.3334/ORNLDAAC/1984";
       page_request Sample.concept 1;
       page_request Sample.concept 2;
       page_request Sample.concept 3 ],
     Return [ "s3://ornl-cumulus/uavsar/wterre_s1_2x8.slc";
              "s3://ornl-cumulus/uavsar/wterre.ann";
              "s3://ornl-cumulus/uavsar/wterre_s2_2x8.slc" ]).
Proof.
  apply (search_cmr_pagination Sample.srv_two_pages Sample.doi Sample.concept
           Sample.two_pages 2 3).
  - reflexivity.
  - intros k _. reflexivity.
  - intros k Hk. assert (E : k = 1 \/ k = 2) by lia.
    destruct E as [-> | ->]; split; (discriminate || reflexivity).
  - reflexivity.
  - lia.
Defined.

Lemma page_links_concat (pages : Z -> list json) (ks : list Z) :
  flat_map page_s3 (map pages ks)
  = flat_map s3_hrefs (List.concat (map pages ks)).
Proof.
  induction ks as [|k ks IH]; cbn [map flat_map List.concat].
  - reflexivity.
  - rewrite flat_map_app, IH. reflexivity.
Qed.

(** C4. With a successful lookup and a listing whose pages [1..n] are
    non-empty lists of granule records (each with a list of links carrying a
    string [href]) and whose page [n+1] is empty, the list returned by
    [search_cmr] is, granule by granule in listing order, the hrefs of the
    granule that start with [s3://]: a location is in the result exactly
    when it is the href of a link of one of the granules and starts with
    [s3://]; every other href is left out. *)
Theorem search_cmr_keeps_s3_only (srv : server) (doi : string) (c : json)
  (pages : Z -> list json) (n fuel : nat) :
  snd (lookup_concept_id srv doi) = Return c ->
  (forall k, 1 <= k <= 1 + Z.of_nat n ->
             snd (fetch_page srv c k) = Return (JList (pages k))) ->
  (forall k, 1 <= k < 1 + Z.of_nat n ->
             pages k <> [] /\ forallb wf_granule (pages k) = true) ->
  pages (1 + Z.of_nat n) = [] ->
  (n < fuel)%nat ->
  exists l : list string,
    snd (search_cmr srv fuel doi) = Return l
    /\ l = flat_map (fun g => filter (String.prefix "s3://") (hrefs g))
                    (List.concat (map pages (page_range 1 n)))
    /\ forall h : string,
         In h l <->
         exists g, In g (List.concat (map pages (page_range 1 n)))
                   /\ In h (hrefs g)
                   /\ String.prefix "s3://" h = true.
Proof.
  intros Hc Hfetch Hfull Hlast Hfuel.
  exists (flat_map s3_hrefs (List.concat (map pages (page_range 1 n)))).
  split; [|split].
  - rewrite (search_cmr_found srv doi fuel c Hc).
    rewrite (search_loop_pages srv c pages n fuel 1 []); auto.
    cbn [snd app]. now rewrite page_links_concat.
  - reflexivity.
  - intros h. rewrite in_flat_map. split.
    + intros [g [Hg Hh]]. apply filter_In in Hh as [Hin Hs3].
      exists g. auto.
    + intros [g [Hg [Hin Hs3]]]. exists g. split; [assumption|].
      apply filter_In. auto.
Qed.

Lemma search_cmr_keeps_s3_only_witness :
  hrefs Sample.three_links =
    [ "s3://ornl-cumulus/uavsar/wterre_s1_2x8.slc";
      "https://data.ornldaac.earthdata.nasa.gov/wterre_s1_2x8.slc";
      "ftp://ftp.example.org/wterre_s1_2x8.slc" ]
  /\ snd (search_cmr Cases.srv_three_links 2 Sample.doi) =
       Return [ "s3://ornl-cumulus/uavsar/wterre_s1_2x8.slc" ].
Proof.
  split; [reflexivity|].
  destruct (search_cmr_keeps_s3_only Cases.srv_three_links Sample.doi
              Sample.concept
              (fun n => if n =? 1 then [Sample.three_links] else [])
              1 2) as [l [Hl [Heq _]]].
  - reflexivity.
  - intros k _. reflexivity.
  - intros k Hk. replace k with 1 by lia. split; [discriminate|reflexivity].
  - reflexivity.
  - lia.
  - rewrite Hl, Heq. reflexivity.
Defined.

(** The two-page catalog is exhausted within three iterations. *)
Example two_pages_terminates : terminates Sample.srv_two_pages Sample.doi.
Proof. exists 3%nat. vm_compute. discriminate. Qed.

(** C10. For a listing that answers every page [k >= 1] with an entry list
    [pages k] of well-formed granules, [search_cmr] comes to an end if and
    only if some page [k >= 1] is empty; and when every page is non-empty
    the loop is still running after any number of iterations. *)
Theorem search_cmr_terminates_iff (srv : server) (doi : string) (c : json)
  (pages : Z -> list json) :
  snd (lookup_concept_id srv doi) = Return c ->
  (forall k, 1 <= k -> snd (fetch_page srv c k) = Return (JList (pages k))) ->
  (forall k, 1 <= k -> forallb wf_granule (pages k) = true) ->
  (terminates srv doi <-> exists k, 1 <= k /\ pages k = [])
  /\ ((forall k, 1 <= k -> pages k <> []) ->
      forall fuel, snd (search_cmr srv fuel doi) = Running).
Proof.
  intros Hc Hfetch Hwf.
  assert (Hrun : forall fuel,
             (forall k, 1 <= k < 1 + Z.of_nat fuel -> pages k <> []) ->
             snd (search_cmr srv fuel doi) = Running).
  { intros fuel Hne. rewrite (search_cmr_found srv doi fuel c Hc).
    rewrite (search_loop_running srv c pages fuel 1 []); [reflexivity|].
    intros k Hk. repeat split; [apply Hfetch | apply Hne | apply Hwf]; lia. }
  split; [split|].
  - intros [fuel Hfuel].
    destruct (first_empty_page pages fuel 1) as [[m [_ [He _]]] | Hall].
    + exists (1 + Z.of_nat m). split; [lia | exact He].
    + elim Hfuel. now apply Hrun.
  - intros [k [Hk He]].
    destruct (first_empty_page pages (S (Z.to_nat k)) 1)
      as [[m [_ [Hm Hb]]] | Hall].
    + exists (S m).
      rewrite (search_cmr_found srv doi (S m) c Hc).
      rewrite (search_loop_pages srv c pages m (S m) 1 []); auto.
      * discriminate.
      * intros j Hj. apply Hfetch. lia.
      * intros j Hj. split; [now apply Hb | apply Hwf; lia].
    + elim (Hall k); [lia | exact He].
  - intros Hne fuel. apply Hrun. intros k Hk. apply Hne. lia.
Qed.

Lemma search_cmr_terminates_iff_witness :
  (terminates Sample.srv_endless Sample.doi <->
   exists k, 1 <= k /\ Sample.endless_pages k = [])
  /\ forall fuel,
       snd (search_cmr Sample.srv_endless fuel Sample.doi) = Running.
Proof.
  destruct (search_cmr_terminates_iff Sample.srv_endless Sample.doi
              Sample.concept Sample.endless_pages) as [Hiff Hrun].
  - reflexivity.
  - intros k _. reflexivity.
  - intros k _. reflexivity.
  - split; [exact Hiff|]. apply Hrun. intros k _. discriminate.
Defined.

(* ===================================================================== *)
(** ** The DOI lookup *)
(* ===================================================================== *)

(** C9. [search_cmr] issues one lookup request, the first of its requests,
    and every later request is a page request. When the lookup is answered
    with a JSON body: an empty entry list raises [IndexError]; a body
    without [feed], a feed without [entry], or a first entry without [id]
    raises [KeyError]; in each of these cases nothing is requested after
    the lookup. When the first entry has an [id], that value is the
    collection identifier of every page request. *)
Theorem search_cmr_lookup (srv : server) (fuel : nat) (doi : string)
  (r : Response) (d : list (string * json)) :
  srv (GET (doisearch doi)) = Return r ->
  body r = Some (JDict d) ->
  (exists (c : json) (m : nat),
      fst (search_cmr srv fuel doi) =
        GET (doisearch doi) :: map (page_request c) (page_range 1 m))
  /\ (dict_get "feed" d = None ->
      search_cmr srv fuel doi = ([GET (doisearch doi)], Raise KeyError))
  /\ (forall f,
        dict_get "feed" d = Some (JDict f) ->
        (dict_get "entry" f = None ->
         search_cmr srv fuel doi = ([GET (doisearch doi)], Raise KeyError))
        /\ (dict_get "entry" f = Some (JList []) ->
            search_cmr srv fuel doi =
              ([GET (doisearch doi)], Raise IndexError))
        /\ (forall e rest,
              dict_get "entry" f = Some (JList (JDict e :: rest)) ->
              (dict_get "id" e = None ->
               search_cmr srv fuel doi =
                 ([GET (doisearch doi)], Raise KeyError))
              /\ (forall c, dict_get "id" e = Some c ->
                    search_cmr srv fuel doi =
                      (GET (doisearch doi)
                         :: fst (search_loop srv fuel c 1 []),
                       snd (search_loop srv fuel c 1 []))
                    /\ exists m : nat,
                         fst (search_loop srv fuel c 1 []) =
                           map (page_request c) (page_range 1 m)))).
Proof.
  intros Hr Hb.
  pose proof (lookup_concept_id_body srv doi r (JDict d) Hr Hb) as Hl.
  assert (Hfail : forall e,
             concept_id_of (JDict d) = Raise e ->
             search_cmr srv fuel doi = ([GET (doisearch doi)], Raise e)).
  { intros e He. apply search_cmr_lookup_raise. now rewrite Hl, <- He. }
  assert (Hok : forall c,
             concept_id_of (JDict d) = Return c ->
             search_cmr srv fuel doi =
               (GET (doisearch doi) :: fst (search_loop srv fuel c 1 []),
                snd (search_loop srv fuel c 1 []))).
  { intros c Hc. apply search_cmr_found. now rewrite Hl, <- Hc. }
  split; [|split].
  - destruct (concept_id_of (JDict d)) as [c|e|] eqn:Hc.
    + destruct (search_loop_requests srv c fuel 1 []) as [m Hm].
      exists c, m. rewrite (Hok c eq_refl). cbn [fst]. now rewrite Hm.
    + exists JNone, 0%nat. now rewrite (Hfail e eq_refl).
    + exists JNone, 0%nat. unfold search_cmr. now rewrite Hl.
  - intros Hfeed. apply Hfail. unfold concept_id_of, getitem.
    now rewrite Hfeed.
  - intros f Hfeed.
    assert (Hent : concept_id_of (JDict d) =
                   (entry <~ getitem (JDict f) "entry" ;;
                    first <~ getitem_int entry 0 ;;
                    getitem first "id")).
    { unfold concept_id_of. cbn [getitem]. now rewrite Hfeed. }
    split; [|split].
    + intros He. apply Hfail. rewrite Hent. cbn [getitem]. now rewrite He.
    + intros He. apply Hfail. rewrite Hent. cbn [getitem]. now rewrite He.
    + intros e rest He. split.
      * intros Hid. apply Hfail. rewrite Hent. cbn [getitem].
        rewrite He. cbn. now rewrite Hid.
      * intros c Hid.
        assert (Hc : concept_id_of (JDict d) = Return c).
        { rewrite Hent. cbn [getitem]. rewrite He. cbn. now rewrite Hid. }
        split; [now apply Hok|].
        apply search_loop_requests.
Qed.

Lemma search_cmr_lookup_witness :
  search_cmr Sample.srv_no_collection 5 Sample.doi =
    ([GET (doisearch Sample.doi)], Raise IndexError).
Proof.
  refine (proj1 (proj2 (proj2 (proj2
            (search_cmr_lookup Sample.srv_no_collection 5 Sample.doi
               (mkResponse 200 (Some (Sample.feed [])))
               [("feed", JDict [("entry", JList [])])]
               eq_refl eq_refl))
            [("entry", JList [])] eq_refl)) eq_refl).
Defined.

(* ===================================================================== *)
(** ** HTTP status checks *)
(* ===================================================================== *)

(** A page request answered with an error status raises [HTTPError] at
    once: the loop ends there, whatever the body. *)
Lemma search_loop_http_error (srv : server) (fuel : nat) (c : json) (p : Z)
  (acc : list string) (r : Response) :
  srv (page_request c p) = Return r ->
  is_error_status (status_code r) = true ->
  search_loop srv (S fuel) c p acc = ([page_request c p], Raise HTTPError).
Proof.
  intros Hr Hst. apply search_loop_raise.
  unfold fetch_page, requests_post, bind, lift, raise_for_status.
  unfold page_request in Hr. now rewrite Hr, Hst.
Qed.

(** So does the credential request. *)
Lemma get_s3credentials_http_error (srv : server) (daac : string)
  (r : Response) :
  srv (GET (earthadata_s3 daac)) = Return r ->
  is_error_status (status_code r) = true ->
  get_s3credentials srv daac = ([GET (earthadata_s3 daac)], Raise HTTPError).
Proof.
  intros Hr Hst.
  unfold get_s3credentials, requests_get, bind, lift, raise_for_status.
  now rewrite Hr, Hst.
Qed.

(** The lookup reads the body whatever the status: two answers with the
    same body give the same run. *)
Lemma lookup_ignores_status (srv srv' : server) (doi : string)
  (st st' : Z) (b : option json) :
  srv (GET (doisearch doi)) = Return (mkResponse st b) ->
  srv' (GET (doisearch doi)) = Return (mkResponse st' b) ->
  lookup_concept_id srv doi = lookup_concept_id srv' doi.
Proof.
  intros H H'. unfold lookup_concept_id, requests_get, bind, lift, json_of.
  now rewrite H, H'.
Qed.

(** C7. The DOI lookup of [search_cmr] is not followed by a status check:
    answered with status 500 and a body of the usual shape, the search goes
    on to the listing and returns. *)
Theorem search_cmr_lookup_status_unchecked :
  Sample.srv_lookup_500 (GET (doisearch Sample.doi)) =
    Return (mkResponse 500 (Some Sample.collections))
  /\ is_error_status 500 = true
  /\ search_cmr Sample.srv_lookup_500 1 Sample.doi =
       ([GET (doisearch Sample.doi); page_request Sample.concept 1],
        Return []).
Proof. repeat split. Qed.

(* ===================================================================== *)
(** ** Credentials *)
(* ===================================================================== *)

(** C5. When the credential endpoint answers without an error status and
    with a JSON body, [get_s3credentials] issues that one GET and returns
    the parsed body as it is. *)
Theorem get_s3credentials_returns_body (srv : server) (daac : string)
  (r : Response) (j : json) :
  srv (GET (earthadata_s3 daac)) = Return r ->
  is_error_status (status_code r) = false ->
  body r = Some j ->
  get_s3credentials srv daac = ([GET (earthadata_s3 daac)], Return j).
Proof.
  intros Hr Hst Hb.
  unfold get_s3credentials, requests_get, bind, lift, raise_for_status,
    json_of.
  now rewrite Hr, Hst, Hb.
Qed.

Lemma get_s3credentials_returns_body_witness :
  get_s3credentials Sample.srv_credentials "ornldaac" =
    ([GET "https://data.ornldaac.earthdata.nasa.gov/s3credentials"],
     Return Sample.credentials)
  /\ getitem Sample.credentials "accessKeyId" = Return (JStr "A")
  /\ getitem Sample.credentials "secretAccessKey" = Return (JStr "B")
  /\ getitem Sample.credentials "sessionToken" = Return (JStr "C")
  /\ getitem Sample.credentials "expiration"
     = Return (JStr "2024-01-01T00:00:00Z").
Proof.
  split.
  - apply (get_s3credentials_returns_body Sample.srv_credentials "ornldaac"
             (mkResponse 200 (Some Sample.credentials)) Sample.credentials);
      reflexivity.
  - repeat split.
Defined.

(* ===================================================================== *)
(** ** Raster decode *)
(* ===================================================================== *)

Lemma frombuffer_length_le (n : nat) :
  forall buf : list byte,
    (List.length buf <= n)%nat ->
    List.length (frombuffer buf) = (List.length buf / 8)%nat.
Proof.
  induction n as [|n IH]; intros buf Hlen.
  - destruct buf; [reflexivity | cbn in Hlen; lia].
  - destruct buf as [|b0 [|b1 [|b2 [|b3 [|b4 [|b5 [|b6 [|b7 rest]]]]]]]];
      try reflexivity.
    cbn [frombuffer List.length] in *.
    rewrite (IH rest) by lia.
    change (S (S (S (S (S (S (S (S (List.length rest)))))))))
      with (1 * 8 + List.length rest)%nat.
    now rewrite Nat.div_add_l.
Qed.

Lemma frombuffer_length (buf : list byte) :
  N.of_nat (List.length (frombuffer buf)) = sample_count buf.
Proof.
  unfold sample_count, itemsize.
  rewrite (frombuffer_length_le (List.length buf) buf) by lia.
  now rewrite Nat2N.inj_div.
Qed.

Lemma map_buffer_inv (buf : list byte) (ds : list complex64) :
  map_buffer buf = Return ds ->
  ds = frombuffer buf
  /\ (N.of_nat (List.length buf) mod itemsize = 0)%N
  /\ buf <> [].
Proof.
  unfold map_buffer.
  destruct (N.eqb_spec (N.of_nat (List.length buf) mod itemsize) 0) as [Hm|];
    cbn [negb]; try discriminate.
  destruct (N.eqb_spec (N.of_nat (List.length buf)) 0) as [|Hz];
    try discriminate.
  intros E. injection E as <-. repeat split; auto.
  intros ->. now apply Hz.
Qed.

(** The only failure of the view is [ValueError], and it never hangs. *)
Lemma map_buffer_raises (buf : list byte) (e : exn) :
  map_buffer buf = Raise e -> e = ValueError.
Proof.
  unfold map_buffer.
  destruct (negb _); [congruence|].
  destruct (_ =? _)%N; congruence.
Qed.

Lemma map_buffer_returns_or_raises (buf : list byte) :
  map_buffer buf <> Running.
Proof.
  unfold map_buffer.
  destruct (negb _); [discriminate|].
  destruct (_ =? _)%N; discriminate.
Qed.

Lemma firstn_add {A} (a b : nat) (l : list A) :
  firstn (a + b) l = firstn a l ++ firstn b (skipn a l).
Proof.
  revert l. induction a as [|a IH]; intros l.
  - reflexivity.
  - destruct l as [|x l]; cbn.
    + now rewrite firstn_nil.
    + now rewrite IH.
Qed.

Lemma chunks_concat {A} (w : nat) (l : list A) (n : nat) :
  forall k : nat,
    List.concat (map (fun r => firstn w (skipn (r * w) l)) (seq k n))
    = firstn (n * w) (skipn (k * w) l).
Proof.
  induction n as [|n IH]; intros k.
  - reflexivity.
  - cbn [seq map List.concat]. rewrite IH.
    cbn [Nat.mul]. rewrite firstn_add, skipn_skipn. reflexivity.
Qed.

(** A reshape that succeeds keeps every sample, in order, in rows of
    [cols] samples. *)
Lemma reshape_keeps_samples (rows cols : N) (ds : list complex64)
  (grid : list (list complex64)) :
  reshape rows cols ds = Return grid ->
  List.concat grid = ds
  /\ List.length grid = N.to_nat rows
  /\ N.of_nat (List.length ds) = (rows * cols)%N.
Proof.
  unfold reshape.
  destruct (N.eqb_spec (N.of_nat (List.length ds)) (rows * cols)) as [E|];
    try discriminate.
  intros H. injection H as <-. repeat split; auto.
  - rewrite chunks_concat. cbn [Nat.mul skipn].
    apply firstn_all2. lia.
  - now rewrite length_map, length_seq.
Qed.

(** C6. For every [rows], [cols] and every buffer whose number of complex
    samples differs from [rows * cols], decoding the raster raises
    [ValueError]. *)
Theorem decode_raster_mismatch (rows cols : N) (buf : list byte) :
  sample_count buf <> (rows * cols)%N ->
  decode_raster rows cols buf = Raise ValueError.
Proof.
  intros Hne. unfold decode_raster.
  destruct (map_buffer buf) as [ds|e|] eqn:Hm.
  - apply map_buffer_inv in Hm as [-> _]. cbn [obind]. unfold reshape.
    rewrite frombuffer_length.
    now destruct (N.eqb_spec (sample_count buf) (rows * cols)).
  - now rewrite (map_buffer_raises buf e Hm).
  - now apply map_buffer_returns_or_raises in Hm.
Qed.

Lemma decode_raster_mismatch_witness :
  sample_count Sample.payload_a = 1%N
  /\ decode_raster 2 1 Sample.payload_a = Raise ValueError.
Proof.
  split.
  - reflexivity.
  - apply (decode_raster_mismatch 2 1 Sample.payload_a).
    vm_compute. discriminate.
Defined.

(** A buffer whose length is not [8 * rows * cols] is never decoded: that
    covers both a wrong sample count and a ragged tail. *)
Lemma decode_raster_wrong_length (rows cols : N) (buf : list byte) :
  N.of_nat (List.length buf) <> (itemsize * (rows * cols))%N ->
  decode_raster rows cols buf = Raise ValueError.
Proof.
  intros Hne. unfold decode_raster.
  destruct (map_buffer buf) as [ds|e|] eqn:Hm.
  - apply map_buffer_inv in Hm as [-> [Hmod _]]. cbn [obind]. unfold reshape.
    rewrite frombuffer_length.
    destruct (N.eqb_spec (sample_count buf) (rows * cols)) as [E|];
      [|reflexivity].
    exfalso. apply Hne. rewrite <- E. unfold sample_count, itemsize in *.
    pose proof (N.div_mod (N.of_nat (List.length buf)) 8). lia.
  - now rewrite (map_buffer_raises buf e Hm).
  - now apply map_buffer_returns_or_raises in Hm.
Qed.

(* ===================================================================== *)
(** ** Where the raster bytes come from *)
(* ===================================================================== *)

Lemma split_nonempty (sep : ascii) (s : string) : split sep s <> [].
Proof.
  destruct s as [|c s]; cbn [split]; [discriminate|].
  destruct (Ascii.eqb c sep); [discriminate|].
  destruct (split sep s); discriminate.
Qed.

Lemma list_index_last {A} (l : list A) :
  l <> [] -> exists x, list_index l (-1) = Return x.
Proof.
  intros Hne. unfold list_index.
  assert (Hlen : (0 < List.length l)%nat) by (destruct l; [easy | cbn; lia]).
  replace (-1 <? 0) with true by reflexivity.
  destruct (Z.ltb_spec (-1 + Z.of_nat (List.length l)) 0) as [|_]; [lia|].
  destruct (Z.leb_spec (Z.of_nat (List.length l))
              (-1 + Z.of_nat (List.length l))) as [|_]; [lia|].
  cbn [orb].
  destruct (nth_error l (Z.to_nat (-1 + Z.of_nat (List.length l))))
    as [x|] eqn:E.
  - now exists x.
  - apply nth_error_None in E. lia.
Qed.

Lemma basename_total (g : string) : exists name, basename g = Return name.
Proof. apply list_index_last, split_nonempty. Qed.

Example basename_of_locator :
  basename "s3://ornl-cumulus/uavsar/wterre_s2_2x8.slc"
  = Return "wterre_s2_2x8.slc".
Proof. reflexivity. Qed.

Example select_granules_by_prefix :
  select_granules
    [ "s3://b/x/wterre_34202_21028_017_210407_L090VV_02_BU_s2_2x8.slc";
      "s3://b/x/wterre_34202_21028_017_210407_L090HH_02_BU_s2_2x8.slc";
      "s3://b/wterre_34202_21028_017_210407_L090VV_02_BU.ann" ]
  = Return
      [ "s3://b/x/wterre_34202_21028_017_210407_L090VV_02_BU_s2_2x8.slc";
        "s3://b/wterre_34202_21028_017_210407_L090VV_02_BU.ann" ].
Proof. reflexivity. Qed.

(** The annotation, by contrast, is read from the object store with the
    session's credentials, as text. *)
Lemma read_annotation_via_s3 (st : storage) (fs : S3FileSystem)
  (granule_sub : list string) (ann_file : string) :
  list_index granule_sub 2 = Return ann_file ->
  read_annotation st fs granule_sub
  = obind (s3_object st fs ann_file) read_text.
Proof. intros H. unfold read_annotation. now rewrite H. Qed.

Example read_text_crlf :
  read_text [x61; x0d; x0a; x62; x0d; x63; x0a]
  = Return [97; 10; 98; 10; 99; 10]%N.
Proof. reflexivity. Qed.

Example read_text_two_byte :
  read_text [xc3; xa9] = Return [233%N].
Proof. reflexivity. Qed.

Example read_text_ill_formed :
  read_text [x61; xff; x62] = Raise UnicodeDecodeError
  /\ read_text [xc0; xaf] = Raise UnicodeDecodeError
  /\ read_text [xed; xa0; x80] = Raise UnicodeDecodeError
  /\ read_text [xe2; x82] = Raise UnicodeDecodeError.
Proof. repeat split. Qed.

(** C8, as the notebook has it. With at least two selected granules, the
    SLC cell opens, for reading and writing, the file of the working
    directory named by the last [/]-separated component of the first
    granule's locator, and decodes its bytes: a missing file raises
    [FileNotFoundError], a file that cannot be opened that way raises
    [PermissionError], and two storages with the same such file give the
    same result, whatever the object store holds. *)
Theorem read_slc_reads_local_file (rows cols : N) (st : storage)
  (granule_sub : list string) (seg1 seg2 : string) :
  list_index granule_sub 1 = Return seg1 ->
  list_index granule_sub 0 = Return seg2 ->
  exists name : string,
    basename seg2 = Return name
    /\ read_slc rows cols st granule_sub =
         match local_file st name with
         | Some f =>
             if file_readable f && file_writable f
             then decode_raster rows cols (file_bytes f)
             else Raise PermissionError
         | None => Raise FileNotFoundError
         end
    /\ forall st' : storage,
         local_file st' name = local_file st name ->
         read_slc rows cols st' granule_sub
         = read_slc rows cols st granule_sub.
Proof.
  intros H1 H0. destruct (basename_total seg2) as [name Hn].
  exists name. split; [exact Hn|].
  assert (E : forall s : storage,
             read_slc rows cols s granule_sub =
               match local_file s name with
               | Some f =>
                   if file_readable f && file_writable f
                   then decode_raster rows cols (file_bytes f)
                   else Raise PermissionError
               | None => Raise FileNotFoundError
               end).
  { intros s. unfold read_slc, memmap, decode_raster.
    rewrite H1, H0. cbn [obind]. rewrite Hn. cbn [obind].
    destruct (local_file s name) as [f|]; [|reflexivity].
    now destruct (file_readable f && file_writable f). }
  split; [apply E|].
  intros st' Hsame. now rewrite !E, Hsame.
Qed.

Lemma read_slc_reads_local_file_witness :
  read_slc 1 1 Sample.store_other_copy Sample.granule_sub
  = Return [[mkComplex64 1077936128 1082130432]]
  /\ read_slc 1 1 Cases.store_read_only Sample.granule_sub
     = Raise PermissionError.
Proof.
  split.
  - destruct (read_slc_reads_local_file 1 1 Sample.store_other_copy
                Sample.granule_sub
                "s3://ornl-cumulus/uavsar/wterre_s1_2x8.slc"
                "s3://ornl-cumulus/uavsar/wterre_s2_2x8.slc"
                eq_refl eq_refl) as [name [Hn [Hread _]]].
    injection Hn as <-. exact Hread.
  - destruct (read_slc_reads_local_file 1 1 Cases.store_read_only
                Sample.granule_sub
                "s3://ornl-cumulus/uavsar/wterre_s1_2x8.slc"
                "s3://ornl-cumulus/uavsar/wterre_s2_2x8.slc"
                eq_refl eq_refl) as [name [Hn [Hread _]]].
    injection Hn as <-. exact Hread.
Defined.

(** C8, as the specification words it, fails: with the object present in
    the bucket and a different file of that name in the working directory
    the cell returns the local samples, and with no local file it raises
    although the object can be read with the credentials. *)
Lemma read_slc_not_via_s3 :
  read_slc_via_s3 1 1 Sample.store_other_copy Sample.fs_s3
    Sample.granule_sub
  = Return [[mkComplex64 1065353216 1073741824]]
  /\ read_slc 1 1 Sample.store_other_copy Sample.granule_sub
     = Return [[mkComplex64 1077936128 1082130432]]
  /\ read_slc 1 1 Sample.store_other_copy Sample.granule_sub
     <> read_slc_via_s3 1 1 Sample.store_other_copy Sample.fs_s3
          Sample.granule_sub
  /\ read_slc_seg2 Sample.store_remote_only Sample.granule_sub
     = Raise FileNotFoundError
  /\ s3_object Sample.store_remote_only Sample.fs_s3
       "s3://ornl-cumulus/uavsar/wterre_s2_2x8.slc"
     = Return Sample.payload_a.
Proof.
  repeat split. discriminate.
Qed.

(* ===================================================================== *)
(** ** What [search_cmr] can return, whatever the catalog answers *)
(* ===================================================================== *)

(** A property of the accumulator kept by the body is kept by the loop. *)
Lemma for_each_invariant {A S} (P : S -> Prop) (body : S -> A -> outcome S) :
  (forall s x s', P s -> body s x = Return s' -> P s') ->
  forall (items : list A) (s s' : S),
    P s -> for_each body items s = Return s' -> P s'.
Proof.
  intros Hbody items. induction items as [|x items IH]; intros s s' Hs H.
  - cbn in H. now injection H as <-.
  - cbn [for_each] in H. destruct (body s x) as [s1|e|] eqn:Hb;
      cbn [obind] in H; try discriminate.
    apply (IH s1 s'); eauto.
Qed.

Lemma for_each_app {A S} (body : S -> A -> outcome S) (l1 l2 : list A)
  (s : S) :
  for_each body (l1 ++ l2) s = obind (for_each body l1 s) (for_each body l2).
Proof.
  revert s. induction l1 as [|x l1 IH]; intros s; cbn [app for_each obind].
  - reflexivity.
  - destruct (body s x); cbn [obind]; auto.
Qed.

Definition all_s3 (l : list string) : Prop :=
  Forall (fun h => String.prefix "s3://" h = true) l.

Lemma link_step_all_s3 (acc : list string) (l : json) (acc' : list string) :
  all_s3 acc -> link_step acc l = Return acc' -> all_s3 acc'.
Proof.
  unfold link_step, all_s3. intros Hacc.
  destruct (getitem l "href") as [v|e|]; cbn [obind]; try discriminate.
  destruct v; cbn [obind startswith as_str]; try discriminate.
  destruct (String.prefix "s3://" s) eqn:Hs; cbn [obind]; intros H;
    injection H as <-; auto.
  apply Forall_app. split; auto.
Qed.

Lemma granule_step_all_s3 (acc : list string) (g : json)
  (acc' : list string) :
  all_s3 acc -> granule_step acc g = Return acc' -> all_s3 acc'.
Proof.
  unfold granule_step. intros Hacc.
  destruct (getitem g "links") as [ls|e|]; cbn [obind]; try discriminate.
  destruct (iter ls) as [items|e|]; cbn [obind]; try discriminate.
  apply (for_each_invariant all_s3 link_step link_step_all_s3); auto.
Qed.

Lemma page_step_all_s3 (acc : list string) (granules : json)
  (acc' : list string) :
  all_s3 acc -> page_step acc granules = Return acc' -> all_s3 acc'.
Proof.
  unfold page_step. intros Hacc.
  destruct (iter granules) as [items|e|]; cbn [obind]; try discriminate.
  apply (for_each_invariant all_s3 granule_step granule_step_all_s3); auto.
Qed.

Lemma search_loop_all_s3 (srv : server) (c : json) (fuel : nat) :
  forall (p : Z) (acc l : list string),
    all_s3 acc ->
    snd (search_loop srv fuel c p acc) = Return l -> all_s3 l.
Proof.
  induction fuel as [|fuel IH]; intros p acc l Hacc H.
  - discriminate.
  - cbn [search_loop] in H.
    destruct (fetch_page srv c p) as [log [v|e|]]; cbn [bind] in H;
      try discriminate.
    destruct (truthy v).
    + unfold lift in H.
      destruct (page_step acc v) as [acc'|e|] eqn:Hp; cbn [bind] in H;
        try discriminate.
      destruct (search_loop srv fuel c (p + 1) acc') as [log' o] eqn:Hl.
      cbn in H. apply (IH (p + 1) acc' l).
      * now apply (page_step_all_s3 acc v).
      * now rewrite Hl.
    + cbn in H. now injection H as <-.
Qed.

Lemma search_cmr_all_s3 (srv : server) (fuel : nat) (doi : string)
  (l : list string) :
  snd (search_cmr srv fuel doi) = Return l -> all_s3 l.
Proof.
  unfold search_cmr.
  destruct (lookup_concept_id srv doi) as [log [c|e|]]; cbn [bind];
    try discriminate.
  destruct (search_loop srv fuel c 1 []) as [log' o] eqn:Hl. cbn.
  intros ->. apply (search_loop_all_s3 srv c fuel 1 [] l).
  - constructor.
  - now rewrite Hl.
Qed.

(** X1. Whatever the catalog answers, every locator in a list returned by
    [search_cmr] starts with [s3://]. *)
Theorem search_cmr_only_s3 (srv : server) (fuel : nat) (doi : string)
  (l : list string) :
  snd (search_cmr srv fuel doi) = Return l ->
  forall h : string, In h l -> String.prefix "s3://" h = true.
Proof.
  intros H. apply Forall_forall. exact (search_cmr_all_s3 srv fuel doi l H).
Qed.

Lemma search_cmr_only_s3_witness :
  String.prefix "s3://" "s3://ornl-cumulus/uavsar/wterre.ann" = true.
Proof.
  apply (search_cmr_only_s3 Sample.srv_two_pages 3 Sample.doi
           [ "s3://ornl-cumulus/uavsar/wterre_s1_2x8.slc";
             "s3://ornl-cumulus/uavsar/wterre.ann";
             "s3://ornl-cumulus/uavsar/wterre_s2_2x8.slc" ]).
  - reflexivity.
  - right. left. reflexivity.
Defined.

(* ===================================================================== *)
(** ** Runs that end after some full pages *)
(* ===================================================================== *)

(** After [n] non-empty pages of well-formed granules the loop is at page
    [p + n] with their links collected. *)
Lemma search_loop_skip (srv : server) (c : json) (pages : Z -> list json)
  (n : nat) :
  forall (fuel : nat) (p : Z) (acc : list string),
    (forall k, p <= k < p + Z.of_nat n ->
               snd (fetch_page srv c k) = Return (JList (pages k))
               /\ pages k <> [] /\ forallb wf_granule (pages k) = true) ->
    search_loop srv (n + fuel) c p acc =
      (map (page_request c) (page_range p n)
         ++ fst (search_loop srv fuel c (p + Z.of_nat n)
                   (acc ++ flat_map page_s3 (map pages (page_range p n)))),
       snd (search_loop srv fuel c (p + Z.of_nat n)
              (acc ++ flat_map page_s3 (map pages (page_range p n))))).
Proof.
  induction n as [|n IH]; intros fuel p acc H.
  - cbn [Nat.add page_range seq map flat_map app].
    rewrite app_nil_r, Z.add_0_r.
    now destruct (search_loop srv fuel c p acc).
  - destruct (H p) as [Hf [Hne Hwf]]; [lia|].
    cbn [Nat.add].
    rewrite (search_loop_next srv c (n + fuel) p acc (pages p)); auto.
    rewrite IH.
    + rewrite page_range_S. cbn [map flat_map fst snd app].
      replace (p + 1 + Z.of_nat n) with (p + Z.of_nat (S n)) by lia.
      now rewrite <- !app_assoc.
    + intros k Hk. apply H. lia.
Qed.

Lemma fetch_page_http_error (srv : server) (c : json) (p : Z)
  (r : Response) :
  srv (page_request c p) = Return r ->
  is_error_status (status_code r) = true ->
  snd (fetch_page srv c p) = Raise HTTPError.
Proof.
  intros Hr Hst.
  unfold fetch_page, requests_post, bind, lift, raise_for_status.
  unfold page_request in Hr. now rewrite Hr, Hst.
Qed.

(** X2. When pages [1..n] are served and page [n+1] is answered with an
    error status, [search_cmr] raises [HTTPError] right after that request:
    the links of the pages already read are not returned, and the body of
    the failed answer is not looked at. *)
Theorem search_cmr_page_error_aborts (srv : server) (doi : string)
  (c : json) (pages : Z -> list json) (n fuel : nat) (r : Response) :
  snd (lookup_concept_id srv doi) = Return c ->
  (forall k, 1 <= k < 1 + Z.of_nat n ->
             snd (fetch_page srv c k) = Return (JList (pages k))
             /\ pages k <> [] /\ forallb wf_granule (pages k) = true) ->
  srv (page_request c (1 + Z.of_nat n)) = Return r ->
  is_error_status (status_code r) = true ->
  (n < fuel)%nat ->
  search_cmr srv fuel doi =
    (GET (doisearch doi)
       :: map (page_request c) (page_range 1 n)
       ++ [page_request c (1 + Z.of_nat n)],
     Raise HTTPError).
Proof.
  intros Hc Hpages Hr Hst Hfuel.
  rewrite (search_cmr_found srv doi fuel c Hc).
  replace fuel with (n + S (fuel - S n))%nat by lia.
  rewrite (search_loop_skip srv c pages n _ 1 [] Hpages).
  rewrite (search_loop_raise srv c _ _ _ HTTPError
             (fetch_page_http_error srv c _ r Hr Hst)).
  reflexivity.
Qed.

Lemma search_cmr_page_error_aborts_witness :
  search_cmr Cases.srv_page2_503 5 Sample.doi =
    ([ GET (doisearch Sample.doi);
       page_request Sample.concept 1;
       page_request Sample.concept 2 ],
     Raise HTTPError).
Proof.
  apply (search_cmr_page_error_aborts Cases.srv_page2_503 Sample.doi
           Sample.concept (fun _ => Sample.page1) 1 5
           (mkResponse 503 (Some (Sample.feed Sample.page2)))).
  - reflexivity.
  - intros k Hk. replace k with 1 by lia.
    repeat split. discriminate.
  - reflexivity.
  - reflexivity.
  - lia.
Defined.

(** X3. The search ends normally at the first page whose [entry] is false
    in a test, whether an empty list or [null], [false], [0], an empty
    string or an empty dict: it returns the links of the pages before. *)
Theorem search_cmr_stops_on_falsy_entry (srv : server) (doi : string)
  (c : json) (pages : Z -> list json) (n fuel : nat) (v : json) :
  snd (lookup_concept_id srv doi) = Return c ->
  (forall k, 1 <= k < 1 + Z.of_nat n ->
             snd (fetch_page srv c k) = Return (JList (pages k))
             /\ pages k <> [] /\ forallb wf_granule (pages k) = true) ->
  snd (fetch_page srv c (1 + Z.of_nat n)) = Return v ->
  truthy v = false ->
  (n < fuel)%nat ->
  search_cmr srv fuel doi =
    (GET (doisearch doi)
       :: map (page_request c) (page_range 1 n)
       ++ [page_request c (1 + Z.of_nat n)],
     Return (flat_map page_s3 (map pages (page_range 1 n)))).
Proof.
  intros Hc Hpages Hv Hfalse Hfuel.
  rewrite (search_cmr_found srv doi fuel c Hc).
  replace fuel with (n + S (fuel - S n))%nat by lia.
  rewrite (search_loop_skip srv c pages n _ 1 [] Hpages).
  rewrite (search_loop_stop srv c _ _ _ v Hv Hfalse).
  reflexivity.
Qed.

Lemma search_cmr_stops_on_falsy_entry_witness :
  search_cmr Cases.srv_page2_null 5 Sample.doi =
    ([ GET (doisearch Sample.doi);
       page_request Sample.concept 1;
       page_request Sample.concept 2 ],
     Return [ "s3://ornl-cumulus/uavsar/wterre_s1_2x8.slc";
              "s3://ornl-cumulus/uavsar/wterre.ann" ]).
Proof.
  apply (search_cmr_stops_on_falsy_entry Cases.srv_page2_null Sample.doi
           Sample.concept (fun _ => Sample.page1) 1 5 JNone).
  - reflexivity.
  - intros k Hk. replace k with 1 by lia.
    repeat split. discriminate.
  - reflexivity.
  - reflexivity.
  - lia.
Defined.

(* ===================================================================== *)
(** ** Malformed granule records *)
(* ===================================================================== *)

(** X4. A granule record without a [links] key, anywhere in a page after
    well-formed records, makes that iteration of the search raise
    [KeyError]: the search stops at that page request and the links
    gathered so far are dropped. *)
Theorem search_loop_granule_without_links (srv : server) (c : json)
  (fuel : nat) (p : Z) (acc : list string) (before after : list json)
  (d : list (string * json)) :
  snd (fetch_page srv c p) = Return (JList (before ++ JDict d :: after)) ->
  forallb wf_granule before = true ->
  dict_get "links" d = None ->
  search_loop srv (S fuel) c p acc = ([page_request c p], Raise KeyError).
Proof.
  intros Hf Hwf Hd. cbn [search_loop].
  rewrite (bind_fst_snd _ _ _ _ (fetch_page_eq srv c p _ Hf)).
  assert (Ht : truthy (JList (before ++ JDict d :: after)) = true)
    by (destruct before; reflexivity).
  rewrite Ht. unfold lift, page_step. cbn [iter obind].
  rewrite for_each_app, (for_each_granules before Hwf). cbn [obind for_each].
  assert (E : granule_step (acc ++ page_s3 before) (JDict d) = Raise KeyError).
  { unfold granule_step. cbn [getitem]. now rewrite Hd. }
  rewrite E. reflexivity.
Qed.

Lemma search_loop_granule_without_links_witness :
  search_loop (Sample.catalog (mkResponse 200 None)
                 (fun _ => Cases.page_without_links))
    4 Sample.concept 1 []
  = ([page_request Sample.concept 1], Raise KeyError).
Proof.
  apply (search_loop_granule_without_links _ Sample.concept 3 1 []
           [Sample.three_links] [Sample.three_links]
           [("title", JStr "bare")]); reflexivity.
Defined.

(** X5. Inside a granule, a link record without [href] raises [KeyError]
    and one whose [href] is not a string raises [AttributeError], also when
    links before it were already kept. *)
Theorem granule_step_bad_link (acc : list string)
  (g l : list (string * json)) (before after : list json) :
  dict_get "links" g = Some (JList (before ++ JDict l :: after)) ->
  forallb wf_link before = true ->
  (dict_get "href" l = None ->
   granule_step acc (JDict g) = Raise KeyError)
  /\ (forall v, dict_get "href" l = Some v ->
                (forall s, v <> JStr s) ->
                granule_step acc (JDict g) = Raise AttributeError).
Proof.
  intros Hg Hwf.
  assert (E : granule_step acc (JDict g) =
              obind (link_step (acc ++ filter is_s3 (hrefs_of before))
                       (JDict l))
                    (for_each link_step after)).
  { unfold granule_step. cbn [getitem]. rewrite Hg. cbn [obind iter].
    rewrite for_each_app, (for_each_links before Hwf). reflexivity. }
  rewrite E. unfold link_step. cbn [getitem]. split.
  - intros ->. reflexivity.
  - intros v -> Hv. cbn [obind].
    destruct v; try reflexivity. now elim (Hv s).
Qed.

Lemma granule_step_bad_link_witness :
  granule_step [] Cases.granule_link_without_href = Raise KeyError.
Proof.
  refine (proj1 (granule_step_bad_link []
            [ ("title", JStr "g");
              ("links", JList [ Sample.link "s3#" "s3://ornl-cumulus/uavsar/a.slc";
                                JDict [("rel", JStr "s3#")] ]) ]
            [("rel", JStr "s3#")]
            [ Sample.link "s3#" "s3://ornl-cumulus/uavsar/a.slc" ] []
            eq_refl eq_refl) eq_refl).
Defined.

Example granule_step_number_href :
  granule_step [] Cases.granule_link_number_href = Raise AttributeError.
Proof. reflexivity. Qed.

(* ===================================================================== *)
(** ** Credentials and the session *)
(* ===================================================================== *)

Lemma get_s3credentials_log (srv : server) (daac : string) :
  fst (get_s3credentials srv daac) = [GET (earthadata_s3 daac)].
Proof.
  unfold get_s3credentials, requests_get, bind, lift.
  destruct (srv _); reflexivity.
Qed.

(** X6. [get_s3credentials] issues exactly one request, and a value it
    returns is the JSON body of an answer whose status is not an error:
    it never returns anything from an answer with a 4xx or 5xx status. *)
Theorem get_s3credentials_return_inv (srv : server) (daac : string)
  (j : json) :
  snd (get_s3credentials srv daac) = Return j ->
  fst (get_s3credentials srv daac) = [GET (earthadata_s3 daac)]
  /\ exists r : Response,
       srv (GET (earthadata_s3 daac)) = Return r
       /\ is_error_status (status_code r) = false
       /\ body r = Some j.
Proof.
  intros H. split; [apply get_s3credentials_log|].
  unfold get_s3credentials, requests_get, bind, lift, raise_for_status,
    json_of in H.
  destruct (srv (GET (earthadata_s3 daac))) as [r|e|]; try discriminate.
  exists r. cbn in H.
  destruct (is_error_status (status_code r)); try discriminate.
  destruct (body r) as [b|]; try discriminate.
  cbn in H. injection H as <-. auto.
Qed.

Lemma get_s3credentials_return_inv_witness :
  exists r : Response,
    Sample.srv_credentials (GET (earthadata_s3 "ornldaac")) = Return r
    /\ is_error_status (status_code r) = false
    /\ body r = Some Sample.credentials.
Proof.
  exact (proj2 (get_s3credentials_return_inv Sample.srv_credentials
                  "ornldaac" Sample.credentials eq_refl)).
Defined.

Example get_s3credentials_403 :
  get_s3credentials Cases.srv_credentials_403 "ornldaac"
  = ([GET "https://data.ornldaac.earthdata.nasa.gov/s3credentials"],
     Raise HTTPError).
Proof. reflexivity. Qed.

Lemma get_s3credentials_returns_body_aux (srv : server) (r : Response)
  (j : json) :
  srv (GET (earthadata_s3 "ornldaac")) = Return r ->
  is_error_status (status_code r) = false ->
  body r = Some j ->
  get_s3credentials srv "ornldaac"
  = ([GET (earthadata_s3 "ornldaac")], Return j).
Proof.
  intros Hr Hst Hb.
  unfold get_s3credentials, requests_get, bind, lift, raise_for_status,
    json_of.
  now rewrite Hr, Hst, Hb.
Qed.

(** X7. From the credential request to the session: when the endpoint
    answers without error with a dict, the session is built from the three
    values [accessKeyId], [secretAccessKey] and [sessionToken] as sent, but
    only if [expiration] is there too; without [expiration] the notebook
    raises [KeyError] at the print and no session is built, and without one
    of the three credential keys it raises [KeyError] at the constructor. *)
Theorem fs_s3_cell_keys (srv : server) (r : Response)
  (d : list (string * json)) :
  srv (GET (earthadata_s3 "ornldaac")) = Return r ->
  is_error_status (status_code r) = false ->
  body r = Some (JDict d) ->
  (dict_get "expiration" d = None ->
   fs_s3_cell srv = ([GET (earthadata_s3 "ornldaac")], Raise KeyError))
  /\ (forall e, dict_get "expiration" d = Some e ->
      (forall k s t,
          dict_get "accessKeyId" d = Some k ->
          dict_get "secretAccessKey" d = Some s ->
          dict_get "sessionToken" d = Some t ->
          fs_s3_cell srv =
            ([GET (earthadata_s3 "ornldaac")],
             Return (mkS3FileSystem k s t)))
      /\ (dict_get "accessKeyId" d = None
          \/ dict_get "secretAccessKey" d = None
          \/ dict_get "sessionToken" d = None ->
          fs_s3_cell srv =
            ([GET (earthadata_s3 "ornldaac")], Raise KeyError))).
Proof.
  intros Hr Hst Hb.
  pose proof (get_s3credentials_returns_body_aux srv r (JDict d) Hr Hst Hb)
    as Hget.
  unfold fs_s3_cell, s3credentials_cell. rewrite Hget.
  cbn [bind lift getitem app]. split.
  - intros ->. reflexivity.
  - intros e ->. cbn [obind bind app]. unfold make_fs_s3. cbn [getitem].
    split.
    + intros k s t -> -> ->. reflexivity.
    + intros [H | [H | H]].
      * rewrite H. reflexivity.
      * rewrite H. destruct (dict_get "accessKeyId" d); reflexivity.
      * rewrite H. destruct (dict_get "accessKeyId" d); cbn [obind];
          [|reflexivity].
        destruct (dict_get "secretAccessKey" d); reflexivity.
Qed.

Lemma fs_s3_cell_keys_witness :
  fs_s3_cell Cases.srv_no_expiration
  = ([GET "https://data.ornldaac.earthdata.nasa.gov/s3credentials"],
     Raise KeyError)
  /\ make_fs_s3 (JDict Cases.credentials_no_expiration)
     = Return Sample.fs_s3.
Proof.
  split.
  - exact (proj1 (fs_s3_cell_keys Cases.srv_no_expiration
                    (mkResponse 200
                       (Some (JDict Cases.credentials_no_expiration)))
                    Cases.credentials_no_expiration
                    eq_refl eq_refl eq_refl) eq_refl).
  - reflexivity.
Defined.

Example fs_s3_cell_sample :
  fs_s3_cell Sample.srv_credentials
  = ([GET "https://data.ornldaac.earthdata.nasa.gov/s3credentials"],
     Return Sample.fs_s3).
Proof. reflexivity. Qed.

(* ===================================================================== *)
(** ** File names and the sub-selection *)
(* ===================================================================== *)

Lemma split_cons (sep : ascii) (s : string) :
  exists h t, split sep s = h :: t.
Proof.
  destruct (split sep s) as [|h t] eqn:E.
  - now elim (split_nonempty sep s).
  - now exists h, t.
Qed.

(** Splitting on a separator loses nothing: joining the pieces with
    the separator gives the string back, and no piece contains the
    separator. *)
Theorem split_join (sep : ascii) (s : string) :
  String.concat (String sep EmptyString) (split sep s) = s
  /\ Forall (fun piece => contains sep piece = false) (split sep s).
Proof.
  induction s as [|c s [IHj IHf]].
  - split; [reflexivity | repeat constructor].
  - cbn [split]. destruct (Ascii.eqb_spec c sep) as [-> | Hne].
    + destruct (split_cons sep s) as [h [t E]]. rewrite E in *.
      split; [|constructor; [reflexivity | assumption]].
      cbn [String.concat]. cbn [String.append].
      f_equal. exact IHj.
    + destruct (split_cons sep s) as [h [t E]]. rewrite E in *.
      split.
      * rewrite <- IHj. destruct t; reflexivity.
      * inversion IHf as [|? ? Hh Ht]; subst. constructor; [|assumption].
        cbn [contains]. rewrite Hh.
        now destruct (Ascii.eqb_spec c sep).
Qed.

Lemma string_app_assoc (a b c : string) :
  ((a ++ b) ++ c = a ++ (b ++ c))%string.
Proof.
  induction a as [|x a IH]; cbn [String.append]; [reflexivity|].
  now rewrite IH.
Qed.

Lemma concat_snoc (sep : string) (init : list string) (x : string) :
  String.concat sep (init ++ [x]) =
    match init with
    | [] => x
    | _ => (String.concat sep init ++ sep ++ x)%string
    end.
Proof.
  induction init as [|a init IH]; [reflexivity|].
  cbn [app]. destruct init as [|b init].
  - reflexivity.
  - change (String.concat sep (a :: (b :: init) ++ [x]))
      with (a ++ sep ++ String.concat sep ((b :: init) ++ [x]))%string.
    rewrite IH.
    change (String.concat sep (a :: b :: init))
      with (a ++ sep ++ String.concat sep (b :: init))%string.
    now rewrite !string_app_assoc.
Qed.

Lemma list_index_last_eq {A} (init : list A) (x : A) :
  list_index (init ++ [x]) (-1) = Return x.
Proof.
  unfold list_index. rewrite length_app. cbn [List.length].
  replace (-1 <? 0) with true by reflexivity.
  replace (-1 + Z.of_nat (List.length init + 1))
    with (Z.of_nat (List.length init)) by lia.
  destruct (Z.ltb_spec (Z.of_nat (List.length init)) 0); [lia|].
  destruct (Z.leb_spec (Z.of_nat (List.length init + 1))
              (Z.of_nat (List.length init))); [lia|].
  cbn [orb]. rewrite Nat2Z.id, nth_error_app2 by lia.
  now rewrite Nat.sub_diag.
Qed.

(** X8. [g.split('/')[-1]] never raises: it is the part of the locator
    after its last [/] (the whole locator when it has none), and contains
    no [/] itself. *)
Theorem basename_spec (g : string) :
  exists pre name : string,
    basename g = Return name
    /\ g = (pre ++ name)%string
    /\ contains "/"%char name = false
    /\ (pre = EmptyString \/ exists q, pre = (q ++ "/")%string).
Proof.
  destruct (split_join "/"%char g) as [Hj Hf].
  pose proof (app_removelast_last EmptyString (split_nonempty "/"%char g))
    as Hs.
  remember (removelast (split "/"%char g)) as init eqn:Hi.
  remember (last (split "/"%char g) EmptyString) as name eqn:Hl.
  clear Hi Hl. rewrite Hs in Hj, Hf.
  rewrite concat_snoc in Hj.
  apply Forall_app in Hf as [_ Hname]. apply Forall_inv in Hname as Hn.
  assert (Hb : basename g = Return name).
  { unfold basename. rewrite Hs. apply list_index_last_eq. }
  clear Hs. destruct init as [|a init].
  - exists EmptyString, name. repeat split; auto.
  - exists (String.concat "/" (a :: init) ++ "/")%string, name.
    repeat split; auto.
    + rewrite <- Hj. now rewrite string_app_assoc.
    + right. now exists (String.concat "/" (a :: init)).
Qed.

Lemma select_accumulates (granule_arr : list string) :
  forall acc : list string,
    for_each select_step granule_arr acc
    = Return (acc ++ filter selected granule_arr).
Proof.
  induction granule_arr as [|g rest IH]; intros acc; cbn [for_each filter].
  - now rewrite app_nil_r.
  - unfold select_step at 1, selected.
    destruct (basename_total g) as [name ->]. cbn [obind].
    destruct (String.prefix granule_prefix name); cbn [obind]; rewrite IH.
    + now rewrite <- app_assoc.
    + reflexivity.
Qed.

(** X9. The sub-selection never raises: it returns, in the order of the
    input, exactly the locators whose last path component starts with the
    acquisition prefix. *)
Theorem select_granules_filter (granule_arr : list string) :
  select_granules granule_arr = Return (filter selected granule_arr)
  /\ forall g : string,
       In g (filter selected granule_arr) <->
       In g granule_arr /\
       exists name, basename g = Return name
                    /\ String.prefix granule_prefix name = true.
Proof.
  split.
  - exact (select_accumulates granule_arr []).
  - intros g. rewrite filter_In. unfold selected.
    destruct (basename_total g) as [name Hn]. rewrite Hn. split.
    + intros [Hin Hp]. split; [assumption|]. now exists name.
    + intros [Hin [name' [E Hp]]]. split; [assumption|]. congruence.
Qed.

(** X10. Search then sub-selection: whenever [search_cmr] returns, the
    sub-selection succeeds; what it keeps is the search result filtered, in
    order, by the acquisition prefix on the last path component, and every
    locator kept starts with [s3://]. *)
Theorem search_then_select (srv : server) (fuel : nat) (doi : string)
  (granule_arr : list string) :
  snd (search_cmr srv fuel doi) = Return granule_arr ->
  exists granule_sub : list string,
    select_granules granule_arr = Return granule_sub
    /\ granule_sub = filter selected granule_arr
    /\ forall g, In g granule_sub ->
         In g granule_arr
         /\ String.prefix "s3://" g = true
         /\ selected g = true.
Proof.
  intros H. exists (filter selected granule_arr). split; [|split].
  - exact (select_accumulates granule_arr []).
  - reflexivity.
  - intros g Hg. apply filter_In in Hg as [Hin Hsel].
    repeat split; auto.
    pose proof (search_cmr_all_s3 srv fuel doi granule_arr H) as Hall.
    unfold all_s3 in Hall. rewrite Forall_forall in Hall. now apply Hall.
Qed.

Lemma search_then_select_witness :
  snd (search_cmr Cases.srv_wterre 2 Sample.doi)
  = Return [ (Cases.s3_dir ++ Cases.hh_seg1)%string;
             (Cases.s3_dir ++ Cases.vv_seg2)%string;
             (Cases.s3_dir ++ Cases.vv_seg1)%string;
             (Cases.s3_dir ++ Cases.vv_ann)%string ]
  /\ select_granules [ (Cases.s3_dir ++ Cases.hh_seg1)%string;
                       (Cases.s3_dir ++ Cases.vv_seg2)%string;
                       (Cases.s3_dir ++ Cases.vv_seg1)%string;
                       (Cases.s3_dir ++ Cases.vv_ann)%string ]
     = Return [ (Cases.s3_dir ++ Cases.vv_seg2)%string;
                (Cases.s3_dir ++ Cases.vv_seg1)%string;
                (Cases.s3_dir ++ Cases.vv_ann)%string ]
  /\ String.prefix "s3://" (Cases.s3_dir ++ Cases.vv_seg2)%string = true.
Proof.
  split; [reflexivity|].
  destruct (search_then_select Cases.srv_wterre 2 Sample.doi
              [ (Cases.s3_dir ++ Cases.hh_seg1)%string;
                (Cases.s3_dir ++ Cases.vv_seg2)%string;
                (Cases.s3_dir ++ Cases.vv_seg1)%string;
                (Cases.s3_dir ++ Cases.vv_ann)%string ] eq_refl)
    as [sub [Hsel [Hsub Hall]]].
  split.
  - rewrite Hsel, Hsub. reflexivity.
  - apply (Hall (Cases.s3_dir ++ Cases.vv_seg2)%string).
    rewrite Hsub. left. reflexivity.
Defined.

(* ===================================================================== *)
(** ** The read cells index [granule_sub] at fixed positions *)
(* ===================================================================== *)

Lemma list_index_beyond {A} (l : list A) (i : Z) :
  0 <= i -> Z.of_nat (List.length l) <= i ->
  list_index l i = Raise IndexError.
Proof.
  intros H0 Hlen. unfold list_index.
  destruct (Z.ltb_spec i 0); [lia|].
  destruct (Z.ltb_spec i 0); [lia|].
  destruct (Z.leb_spec (Z.of_nat (List.length l)) i); [|lia].
  reflexivity.
Qed.

(** X11. The SLC cell reads [granule_sub[1]] before anything else, though
    only [granule_sub[0]] is mapped: with fewer than two selected granules
    it raises [IndexError] whatever the working directory holds. Likewise
    the annotation cell raises [IndexError] with fewer than three, without
    asking the object store. *)
Theorem read_cells_need_granules (rows cols : N) (st : storage)
  (fs : S3FileSystem) (granule_sub : list string) :
  ((List.length granule_sub < 2)%nat ->
   read_slc rows cols st granule_sub = Raise IndexError)
  /\ ((List.length granule_sub < 3)%nat ->
      read_annotation st fs granule_sub = Raise IndexError).
Proof.
  split; intros Hlen.
  - unfold read_slc. rewrite (list_index_beyond granule_sub 1) by lia.
    reflexivity.
  - unfold read_annotation.
    rewrite (list_index_beyond granule_sub 2) by lia. reflexivity.
Qed.

Lemma read_cells_need_granules_witness :
  local_file Sample.store_other_copy "wterre_s2_2x8.slc"
  = Some (mkLocalEntry Sample.payload_b true true)
  /\ read_slc 1 1 Sample.store_other_copy Cases.one_granule
     = Raise IndexError.
Proof.
  split; [reflexivity|].
  apply (proj1 (read_cells_need_granules 1 1 Sample.store_other_copy
                  Sample.fs_s3 Cases.one_granule)).
  cbn. lia.
Defined.

(* ===================================================================== *)
(** ** What a decoded raster looks like *)
(* ===================================================================== *)

Lemma decode_raster_inv (rows cols : N) (buf : list byte)
  (grid : list (list complex64)) :
  decode_raster rows cols buf = Return grid ->
  buf <> []
  /\ (N.of_nat (List.length buf) mod itemsize = 0)%N
  /\ N.of_nat (List.length (frombuffer buf)) = (rows * cols)%N
  /\ grid = map (fun r => firstn (N.to_nat cols)
                            (skipn (r * N.to_nat cols) (frombuffer buf)))
                (seq 0 (N.to_nat rows)).
Proof.
  unfold decode_raster. intros H.
  destruct (map_buffer buf) as [ds|e|] eqn:Hm; try discriminate.
  apply map_buffer_inv in Hm as [-> [Hmod Hne]]. cbn [obind] in H.
  unfold reshape in H.
  destruct (N.eqb_spec (N.of_nat (List.length (frombuffer buf)))
              (rows * cols)) as [E|]; try discriminate.
  injection H as <-. auto.
Qed.

(** On a buffer, [decode_raster] returns exactly when the buffer is not
    empty and its length is [8 * rows * cols] bytes. *)
Lemma decode_raster_ok_iff (rows cols : N) (buf : list byte) :
  (exists grid, decode_raster rows cols buf = Return grid)
  <-> (N.of_nat (List.length buf) = 8 * (rows * cols))%N /\ buf <> [].
Proof.
  split.
  - intros [grid H]. apply decode_raster_inv in H as [Hne [Hmod [Hcnt _]]].
    split; [|assumption].
    rewrite frombuffer_length in Hcnt. unfold sample_count, itemsize in *.
    pose proof (N.div_mod (N.of_nat (List.length buf)) 8). lia.
  - intros [Hlen Hne]. unfold decode_raster, map_buffer, itemsize.
    assert (Hmod : (N.of_nat (List.length buf) mod 8 = 0)%N).
    { rewrite Hlen, N.mul_comm. now apply N.Div0.mod_mul. }
    rewrite Hmod. cbn [N.eqb negb].
    destruct (N.eqb_spec (N.of_nat (List.length buf)) 0) as [Hz|_].
    + destruct buf; [now elim Hne | cbn in Hz; lia].
    + cbn [obind]. unfold reshape. rewrite frombuffer_length.
      unfold sample_count, itemsize. rewrite Hlen.
      rewrite N.mul_comm, N.div_mul by lia. rewrite N.eqb_refl. eauto.
Qed.

(** X12. With at least two selected granules and a non-empty file of the
    working directory under the name the SLC cell maps: the cell returns a
    raster exactly when the file can be opened for reading and writing and
    is [8 * rows * cols] bytes long; when it cannot be opened that way the
    cell raises [PermissionError] whatever its length. *)
Theorem read_slc_ok_iff (rows cols : N) (st : storage)
  (granule_sub : list string) (seg1 seg2 name : string) (f : local_entry) :
  list_index granule_sub 1 = Return seg1 ->
  list_index granule_sub 0 = Return seg2 ->
  basename seg2 = Return name ->
  local_file st name = Some f ->
  file_bytes f <> [] ->
  ((exists grid, read_slc rows cols st granule_sub = Return grid)
   <-> file_readable f = true /\ file_writable f = true
       /\ (N.of_nat (List.length (file_bytes f)) = 8 * (rows * cols))%N)
  /\ (file_readable f && file_writable f = false ->
      read_slc rows cols st granule_sub = Raise PermissionError).
Proof.
  intros H1 H0 Hn Hf Hne.
  assert (E : read_slc rows cols st granule_sub =
              if file_readable f && file_writable f
              then decode_raster rows cols (file_bytes f)
              else Raise PermissionError).
  { unfold read_slc, memmap, decode_raster.
    rewrite H1, H0. cbn [obind]. rewrite Hn. cbn [obind]. rewrite Hf.
    now destruct (file_readable f && file_writable f). }
  rewrite E. split.
  - destruct (file_readable f) eqn:Hr, (file_writable f) eqn:Hw;
      cbn [andb]; try (split; [intros [grid H]; discriminate
                              | intros [? [? _]]; discriminate]).
    rewrite decode_raster_ok_iff. split.
    + intros [Hlen _]. auto.
    + intros [_ [_ Hlen]]. auto.
  - intros ->. reflexivity.
Qed.

Lemma read_slc_ok_iff_witness :
  (exists grid,
      read_slc 1 1 Sample.store_other_copy Sample.granule_sub = Return grid)
  /\ read_slc 1 1 Cases.store_read_only Sample.granule_sub
     = Raise PermissionError
  /\ ~ (exists grid,
          read_slc 2 1 Sample.store_other_copy Sample.granule_sub
          = Return grid).
Proof.
  split; [|split].
  - apply (proj1 (read_slc_ok_iff 1 1 Sample.store_other_copy
                    Sample.granule_sub
                    "s3://ornl-cumulus/uavsar/wterre_s1_2x8.slc"
                    "s3://ornl-cumulus/uavsar/wterre_s2_2x8.slc"
                    "wterre_s2_2x8.slc"
                    (mkLocalEntry Sample.payload_b true true)
                    eq_refl eq_refl eq_refl eq_refl
                    ltac:(discriminate))).
    repeat split.
  - apply (proj2 (read_slc_ok_iff 1 1 Cases.store_read_only
                    Sample.granule_sub
                    "s3://ornl-cumulus/uavsar/wterre_s1_2x8.slc"
                    "s3://ornl-cumulus/uavsar/wterre_s2_2x8.slc"
                    "wterre_s2_2x8.slc"
                    (mkLocalEntry Sample.payload_b true false)
                    eq_refl eq_refl eq_refl eq_refl
                    ltac:(discriminate))).
    reflexivity.
  - intros H.
    apply (proj1 (read_slc_ok_iff 2 1 Sample.store_other_copy
                    Sample.granule_sub
                    "s3://ornl-cumulus/uavsar/wterre_s1_2x8.slc"
                    "s3://ornl-cumulus/uavsar/wterre_s2_2x8.slc"
                    "wterre_s2_2x8.slc"
                    (mkLocalEntry Sample.payload_b true true)
                    eq_refl eq_refl eq_refl eq_refl
                    ltac:(discriminate))) in H.
    destruct H as [_ [_ H]]. vm_compute in H. discriminate.
Defined.

(** X13. A decoded raster has [rows] rows of [cols] samples each, and its
    rows laid end to end are the samples of the buffer in file order. *)
Theorem decode_raster_shape (rows cols : N) (buf : list byte)
  (grid : list (list complex64)) :
  decode_raster rows cols buf = Return grid ->
  List.length grid = N.to_nat rows
  /\ Forall (fun row => List.length row = N.to_nat cols) grid
  /\ List.concat grid = frombuffer buf.
Proof.
  intros H. apply decode_raster_inv in H as [_ [_ [Hcnt ->]]].
  assert (Hlen : List.length (frombuffer buf)
                 = (N.to_nat rows * N.to_nat cols)%nat) by lia.
  repeat split.
  - now rewrite length_map, length_seq.
  - apply Forall_forall. intros row Hin.
    apply in_map_iff in Hin as [r [<- Hr]]. apply in_seq in Hr.
    rewrite length_firstn, length_skipn, Hlen. nia.
  - rewrite chunks_concat. cbn [Nat.mul skipn].
    apply firstn_all2. lia.
Qed.

Lemma decode_raster_shape_witness :
  List.concat Cases.grid_2x3 = frombuffer Cases.six_samples.
Proof.
  exact (proj2 (proj2 (decode_raster_shape 2 3 Cases.six_samples
                         Cases.grid_2x3 eq_refl))).
Defined.

Lemma frombuffer_nth (i : nat) :
  forall (buf : list byte) (z : complex64),
    nth_error (frombuffer buf) i = Some z ->
    frombuffer (sample_bytes i buf) = [z].
Proof.
  unfold sample_bytes.
  induction i as [|i IH]; intros buf z H;
    destruct buf as [|b0 [|b1 [|b2 [|b3 [|b4 [|b5 [|b6 [|b7 rest]]]]]]]];
    try discriminate.
  - cbn in H. injection H as <-. reflexivity.
  - cbn [frombuffer nth_error] in H.
    replace (8 * S i)%nat with (8 + 8 * i)%nat by lia.
    change (skipn (8 + 8 * i)
              (b0 :: b1 :: b2 :: b3 :: b4 :: b5 :: b6 :: b7 :: rest))
      with (skipn (8 * i) rest).
    now apply IH.
Qed.

(** X14. The layout is row-major: the sample at row [r] and column [c] of
    a decoded raster is the one decoded from the eight bytes at offset
    [8 * (r * cols + c)] of the buffer, real part first, each part
    little-endian. *)
Theorem decode_raster_row_major (rows cols : N) (buf : list byte)
  (grid : list (list complex64)) (r c : nat) (row : list complex64)
  (z : complex64) :
  decode_raster rows cols buf = Return grid ->
  nth_error grid r = Some row ->
  nth_error row c = Some z ->
  frombuffer (sample_bytes (r * N.to_nat cols + c) buf) = [z].
Proof.
  intros H Hrow Hz. apply decode_raster_inv in H as [_ [_ [_ ->]]].
  rewrite nth_error_map, nth_error_seq in Hrow.
  destruct (Nat.ltb_spec r (N.to_nat rows)); try discriminate.
  cbn in Hrow. injection Hrow as <-.
  rewrite nth_error_firstn in Hz.
  destruct (Nat.ltb_spec c (N.to_nat cols)); try discriminate.
  rewrite nth_error_skipn in Hz.
  now apply frombuffer_nth.
Qed.

Lemma decode_raster_row_major_witness :
  sample_bytes 5 Cases.six_samples
  = [x06; x00; x00; x00; x0f; x00; x00; x00]
  /\ frombuffer (sample_bytes 5 Cases.six_samples) = [mkComplex64 6 15].
Proof.
  split; [reflexivity|].
  exact (decode_raster_row_major 2 3 Cases.six_samples Cases.grid_2x3
           1 2 [mkComplex64 4 13; mkComplex64 5 14; mkComplex64 6 15]
           (mkComplex64 6 15) eq_refl eq_refl eq_refl).
Defined.

Lemma le32_bound (b0 b1 b2 b3 : byte) : (le32 b0 b1 b2 b3 < 4294967296)%N.
Proof.
  unfold le32.
  pose proof (Byte.to_N_bounded b0). pose proof (Byte.to_N_bounded b1).
  pose proof (Byte.to_N_bounded b2). pose proof (Byte.to_N_bounded b3).
  lia.
Qed.

Lemma to_N_inj (a b : byte) : Byte.to_N a = Byte.to_N b -> a = b.
Proof.
  intros H. pose proof (Byte.of_to_N a) as Ha. rewrite H in Ha.
  rewrite Byte.of_to_N in Ha. now injection Ha.
Qed.

Lemma le32_inj (a0 a1 a2 a3 b0 b1 b2 b3 : byte) :
  le32 a0 a1 a2 a3 = le32 b0 b1 b2 b3 ->
  a0 = b0 /\ a1 = b1 /\ a2 = b2 /\ a3 = b3.
Proof.
  unfold le32. intros H.
  pose proof (Byte.to_N_bounded a0). pose proof (Byte.to_N_bounded a1).
  pose proof (Byte.to_N_bounded a2). pose proof (Byte.to_N_bounded a3).
  pose proof (Byte.to_N_bounded b0). pose proof (Byte.to_N_bounded b1).
  pose proof (Byte.to_N_bounded b2). pose proof (Byte.to_N_bounded b3).
  repeat split; apply to_N_inj; lia.
Qed.

Lemma frombuffer_bounded_le (n : nat) :
  forall buf : list byte,
    (List.length buf <= n)%nat ->
    Forall (fun z => (real_bits z < 4294967296)%N
                     /\ (imag_bits z < 4294967296)%N) (frombuffer buf).
Proof.
  induction n as [|n IH]; intros buf Hlen;
    destruct buf as [|b0 [|b1 [|b2 [|b3 [|b4 [|b5 [|b6 [|b7 rest]]]]]]]];
    try (cbn [frombuffer]; constructor); cbn [List.length] in Hlen;
    try lia.
  - cbn [real_bits imag_bits]. split; apply le32_bound.
  - apply IH. lia.
Qed.

(** Every decoded sample holds two 32-bit patterns: both parts are
    below [2^32]. *)
Theorem frombuffer_bits_bounded (buf : list byte) :
  Forall (fun z => (real_bits z < 2 ^ 32)%N /\ (imag_bits z < 2 ^ 32)%N)
         (frombuffer buf).
Proof.
  exact (frombuffer_bounded_le (List.length buf) buf (Nat.le_refl _)).
Qed.

Lemma mod8_step (k : nat) :
  (S (S (S (S (S (S (S (S k))))))) mod 8 = 0)%nat -> (k mod 8 = 0)%nat.
Proof.
  change (S (S (S (S (S (S (S (S k)))))))) with (8 + k)%nat.
  rewrite Nat.add_comm. change 8%nat with (1 * 8)%nat at 1.
  now rewrite Nat.Div0.mod_add.
Qed.

Lemma frombuffer_injective_le (n : nat) :
  forall buf1 buf2 : list byte,
    (List.length buf1 <= n)%nat ->
    (List.length buf1 mod 8 = 0)%nat ->
    (List.length buf2 mod 8 = 0)%nat ->
    frombuffer buf1 = frombuffer buf2 ->
    buf1 = buf2.
Proof.
  induction n as [|n IH]; intros buf1 buf2 Hlen H1 H2 E;
    destruct buf1 as [|a0 [|a1 [|a2 [|a3 [|a4 [|a5 [|a6 [|a7 rest1]]]]]]]];
    try (cbn in H1; discriminate); try (cbn in Hlen; lia);
    destruct buf2 as [|b0 [|b1 [|b2 [|b3 [|b4 [|b5 [|b6 [|b7 rest2]]]]]]]];
    try (cbn in H2; discriminate); try (cbn in E; discriminate);
    try reflexivity.
  cbn [frombuffer] in E. injection E as Er Ei Erest.
  apply le32_inj in Er as [-> [-> [-> ->]]].
  apply le32_inj in Ei as [-> [-> [-> ->]]].
  do 8 f_equal. apply IH; auto.
  - cbn [List.length] in Hlen. lia.
  - cbn [List.length] in H1. now apply mod8_step.
  - cbn [List.length] in H2. now apply mod8_step.
Qed.

(** X15. The view loses nothing: two files of whole samples (lengths
    multiples of 8) that decode to the same samples are the same bytes. *)
Theorem frombuffer_injective (buf1 buf2 : list byte) :
  (List.length buf1 mod 8 = 0)%nat ->
  (List.length buf2 mod 8 = 0)%nat ->
  frombuffer buf1 = frombuffer buf2 ->
  buf1 = buf2.
Proof.
  apply (frombuffer_injective_le (List.length buf1)). lia.
Qed.

Lemma frombuffer_injective_witness :
  Sample.payload_a = [x00; x00; x80; x3f; x00; x00; x00; x40].
Proof.
  apply (frombuffer_injective Sample.payload_a
           [x00; x00; x80; x3f; x00; x00; x00; x40]); reflexivity.
Defined.

(* ===================================================================== *)
(** ** A lookup answer that cannot be used *)
(* ===================================================================== *)

(** X16. When the lookup request fails at transport level, or its answer
    is not JSON, or the JSON is not a dict, [search_cmr] raises (the
    transport exception, [JSONDecodeError], [TypeError]) and no page is
    ever requested. *)
Theorem search_cmr_lookup_unusable (srv : server) (fuel : nat)
  (doi : string) :
  (forall e, srv (GET (doisearch doi)) = Raise e ->
             search_cmr srv fuel doi = ([GET (doisearch doi)], Raise e))
  /\ (forall r, srv (GET (doisearch doi)) = Return r ->
      (body r = None ->
       search_cmr srv fuel doi
       = ([GET (doisearch doi)], Raise JSONDecodeError))
      /\ (forall j, body r = Some j ->
                    (forall d, j <> JDict d) ->
                    search_cmr srv fuel doi
                    = ([GET (doisearch doi)], Raise TypeError))).
Proof.
  split; [|intros r Hr; split].
  - intros e He. unfold search_cmr, lookup_concept_id, requests_get, bind.
    now rewrite He.
  - intros Hb.
    unfold search_cmr, lookup_concept_id, requests_get, bind, lift, json_of.
    now rewrite Hr, Hb.
  - intros j Hb Hj.
    unfold search_cmr.
    rewrite (lookup_concept_id_body srv doi r j Hr Hb).
    unfold concept_id_of, getitem.
    destruct j; try reflexivity. now elim (Hj d).
Qed.

Lemma search_cmr_lookup_unusable_witness :
  search_cmr (Sample.catalog (mkResponse 502 None) Sample.two_pages) 7
    Sample.doi
  = ([GET (doisearch Sample.doi)], Raise JSONDecodeError).
Proof.
  exact (proj1 (proj2 (search_cmr_lookup_unusable
                         (Sample.catalog (mkResponse 502 None)
                            Sample.two_pages) 7 Sample.doi)
                 (mkResponse 502 None) eq_refl) eq_refl).
Defined.
